(** * Carbon accounting and LULC preprocessing of papua-natural-capital

    Shallow embedding of [src/models/carbon.py] (valuation, scenario
    comparison, input preparation, result summaries) and of
    [src/data/preprocess.py]: the two raster edits ([prepare_lulc_for_invest]
    and [create_scenario_lulc]), the LULC attribute and carbon pool tables,
    [extract_invest_results], and the table steps of [prepare_all_data].

    Python floats are IEEE 754 binary64 numbers; they are modelled with the
    Standard Library's executable specification [spec_float] at precision 53
    and maximal exponent 1024, so every [*], [/], [-] and comparison of the
    source is one rounded operation here, in the source's evaluation order. *)

From Stdlib Require Import ZArith List Bool Ascii String Lia Permutation.
From Stdlib Require Import Floats.SpecFloat Sorting.Sorted.
Import ListNotations.
Open Scope Z_scope.

(** ** Python floats *)
Module PyFloat.

Definition prec : Z := 53.
Definition emax : Z := 1024.

Abbreviation float := spec_float.

Definition fadd : float -> float -> float := SFadd prec emax.
Definition fsub : float -> float -> float := SFsub prec emax.
Definition fmul : float -> float -> float := SFmul prec emax.
Definition fdiv : float -> float -> float := SFdiv prec emax.

(** [float(n)] for a Python [int] [n]: round to nearest, ties to even. *)
Definition of_int (n : Z) : float := binary_normalize prec emax n 0 false.

(** [0.0], [float('inf')] and [float('nan')]. *)
Definition zero : float := S754_zero false.
Definition inf : float := S754_infinity false.
Definition nan : float := S754_nan.

(** Python comparisons; every comparison with a NaN is false, [!=] with a
    NaN is true, and [-0.0 == 0.0]. *)
Definition gtb (x y : float) : bool :=
  match SFcompare x y with Some Gt => true | _ => false end.
Definition leb (x y : float) : bool := SFleb x y.
Definition eqb (x y : float) : bool := SFeqb x y.
Definition neb (x y : float) : bool := negb (SFeqb x y).

(** The literal [2.0 ** k] for an exponent inside the normal range, with
    its 53-bit mantissa [2^52]. *)
Definition pow2 (k : Z) : float := S754_finite false 4503599627370496 (k - 52).

End PyFloat.

Import PyFloat.

Declare Scope py_scope.
Delimit Scope py_scope with py.
Infix "+" := fadd : py_scope.
Infix "-" := fsub : py_scope.
Infix "*" := fmul : py_scope.
Infix "/" := fdiv : py_scope.

(** ** [carbon.py]: logging

    Every function writes to the module logger; the log is threaded through
    as explicit state, a list of records with the values the f-strings print. *)
Inductive level := INFO | WARNING | ERROR.

Record log_record := mk_log { lvl : level; msg : string; args : list float }.

Definition logger := list log_record.

Definition log (l : level) (m : string) (xs : list float) (st : logger) : logger :=
  st ++ [mk_log l m xs].

(** ** [carbon.py]: [calculate_carbon_value] and [compare_scenarios] *)

(** [carbon_data]: "numpy.ndarray or float". *)
Inductive carbon_input :=
| CScalar (x : float)
| CArray (xs : list float).

(** The literal [3.67]: the binary64 number [8264105316224860 * 2^-51]
    (mantissa of 53 bits, as [spec_float] stores normal numbers). *)
Definition co2_factor : float := S754_finite false 8264105316224860 (-51).

Record carbon_value := {
  mean_carbon_mgha : float;
  total_carbon_mg : float;
  mean_co2_mgha : float;
  total_co2_mg : float;
  value_per_ha_usd : float;
  total_value_usd : float;
  npv_per_ha_usd : float;
  npv_total_usd : float
}.

Record scenario_comparison := {
  baseline_carbon_mgha : float;
  scenario_carbon_mgha : float;
  carbon_diff_mgha : float;
  carbon_diff_total_mg : float;
  co2_diff_mgha : float;
  co2_diff_total_mg : float;
  value_diff_per_ha_usd : float;
  value_diff_total_usd : float;
  percent_change : float
}.

Section Valuation.

(** [np.sum] on a one-dimensional float64 array. *)
Variable np_sum : list float -> float.

(** [np.mean]: numpy's [_mean] sums with [np.sum] and divides the sum by
    the element count, [0.0 / 0] (NaN) for an empty array. *)
Definition np_mean (xs : list float) : float :=
  (np_sum xs / of_int (Z.of_nat (List.length xs)))%py.

Definition calculate_carbon_value (carbon_data : carbon_input)
    (area_ha price_per_ton_co2 discount_rate : float) (st : logger)
    : carbon_value * logger :=
  let st := log INFO "Calculating carbon value" [price_per_ton_co2; discount_rate] st in
  let '(mean_carbon, total_carbon) :=
    match carbon_data with
    | CArray xs =>
        (np_mean xs,
         if (0 <? Z.of_nat (List.length xs))%Z
         then (np_sum xs * area_ha / of_int (Z.of_nat (List.length xs)))%py
         else of_int 0)
    | CScalar x => (x, (x * area_ha)%py)
    end in
  let mean_co2 := (mean_carbon * co2_factor)%py in
  let total_co2 := (total_carbon * co2_factor)%py in
  let value_per_ha := (mean_co2 * price_per_ton_co2)%py in
  let total_value := (total_co2 * price_per_ton_co2)%py in
  let npv_per_ha :=
    if gtb discount_rate zero then (value_per_ha / discount_rate)%py else inf in
  let npv_total :=
    if gtb discount_rate zero then (total_value / discount_rate)%py else inf in
  let results := {|
    mean_carbon_mgha := mean_carbon;
    total_carbon_mg := total_carbon;
    mean_co2_mgha := mean_co2;
    total_co2_mg := total_co2;
    value_per_ha_usd := value_per_ha;
    total_value_usd := total_value;
    npv_per_ha_usd := npv_per_ha;
    npv_total_usd := npv_total |} in
  let st := log INFO "Carbon value" [value_per_ha; total_value; npv_total] st in
  (results, st).

Definition mean_of (c : carbon_input) : float :=
  match c with CArray xs => np_mean xs | CScalar x => x end.

Definition compare_scenarios (baseline_carbon scenario_carbon : carbon_input)
    (area_ha price_per_ton_co2 : float) (st : logger)
    : scenario_comparison * logger :=
  let st := log INFO "Comparing carbon scenarios..." [] st in
  let baseline_mean := mean_of baseline_carbon in
  let scenario_mean := mean_of scenario_carbon in
  let carbon_diff := (scenario_mean - baseline_mean)%py in
  let carbon_diff_total := (carbon_diff * area_ha)%py in
  let co2_diff := (carbon_diff * co2_factor)%py in
  let co2_diff_total := (carbon_diff_total * co2_factor)%py in
  let value_diff_per_ha := (co2_diff * price_per_ton_co2)%py in
  let value_diff_total := (co2_diff_total * price_per_ton_co2)%py in
  let percent_change :=
    if neb baseline_mean zero
    then (carbon_diff / baseline_mean * of_int 100)%py else inf in
  let results := {|
    baseline_carbon_mgha := baseline_mean;
    scenario_carbon_mgha := scenario_mean;
    carbon_diff_mgha := carbon_diff;
    carbon_diff_total_mg := carbon_diff_total;
    co2_diff_mgha := co2_diff;
    co2_diff_total_mg := co2_diff_total;
    value_diff_per_ha_usd := value_diff_per_ha;
    value_diff_total_usd := value_diff_total;
    percent_change := percent_change |} in
  let st := log INFO "Scenario comparison" [carbon_diff; percent_change; value_diff_total] st in
  (results, st).

End Valuation.

(** ** Exceptions *)

Inductive exn :=
| FileNotFoundError (path : string)
| FileExistsError (path : string)
| ValueError (what : string)
| OverflowError (what : string)
| ReadError (what : string).   (* any error of rasterio or pandas reading a file *)

Inductive result (A : Type) := Ok (a : A) | Err (e : exn).
Arguments Ok {A} a.
Arguments Err {A} e.

(** A Python [for] loop whose body may raise: the first exception leaves
    the loop. *)
Fixpoint for_each {A B : Type} (body : A -> B -> result A) (xs : list B) (a : A)
    : result A :=
  match xs with
  | [] => Ok a
  | x :: xs' => match body a x with Ok a' => for_each body xs' a' | Err e => Err e end
  end.

(** ** [preprocess.py]: LULC rasters

    The integer dtypes of a raster band. *)
Inductive np_dtype := uint8 | int8 | uint16 | int16 | uint32 | int32 | uint64 | int64.

Definition dtype_min (dt : np_dtype) : Z :=
  match dt with
  | uint8 | uint16 | uint32 | uint64 => 0
  | int8 => -128
  | int16 => -32768
  | int32 => -2147483648
  | int64 => -9223372036854775808
  end.

Definition dtype_max (dt : np_dtype) : Z :=
  match dt with
  | uint8 => 255
  | int8 => 127
  | uint16 => 65535
  | int16 => 32767
  | uint32 => 4294967295
  | int32 => 2147483647
  | uint64 => 18446744073709551615
  | int64 => 9223372036854775807
  end.

Definition fits (dt : np_dtype) (z : Z) : bool :=
  (dtype_min dt <=? z) && (z <=? dtype_max dt).

(** A Python [int] stored into an array of dtype [dt], as in
    [a[mask] = v]: NumPy 2 raises [OverflowError] for a value outside the
    dtype, whatever the mask selects (NumPy 1.x wrapped it instead). *)
Definition np_int_for (dt : np_dtype) (v : Z) : result Z :=
  if fits dt v then Ok v
  else Err (OverflowError "Python integer out of bounds for dtype").

(** A single-band integer raster, read with [src.read(1)], flattened in row
    order; [nodata] is the dataset's nodata value ([None] when unset) and
    [dtype] its band's dtype. Pixel values fit the dtype. *)
Record raster := mk_raster { data : list Z; nodata : option Z; dtype : np_dtype }.

(** [reclass_data[lulc_data == orig_val] = new_val]: a boolean-mask
    assignment, the mask computed on the original [lulc_data]. *)
Definition reclass_step (lulc_data : list Z) (reclass_data : list Z)
    (kv : Z * Z) : list Z :=
  map (fun '(r, o) => if o =? fst kv then snd kv else r)
      (combine reclass_data lulc_data).

(** A Python dict with [Z] keys, in insertion order. Assigning an existing
    key replaces its value in place. *)
Fixpoint dict_set (d : list (Z * Z)) (k v : Z) : list (Z * Z) :=
  match d with
  | [] => [(k, v)]
  | (k', v') :: d' => if k' =? k then (k, v) :: d' else (k', v') :: dict_set d' k v
  end.

(** [dict(zip(reclass_df['original_value'], reclass_df['new_value']))],
    the table given as its rows [(original_value, new_value)]. *)
Definition dict_of_rows (rows : list (Z * Z)) : list (Z * Z) :=
  fold_left (fun d '(k, v) => dict_set d k v) rows [].

(** One iteration of [for orig_val, new_val in reclass_dict.items()]:
    [new_val] is stored into the [reclass_data] array, of the raster's
    dtype [dt]. *)
Definition reclass_assign (dt : np_dtype) (lulc_data : list Z)
    (reclass_data : list Z) (kv : Z * Z) : result (list Z) :=
  match np_int_for dt (snd kv) with
  | Ok new_val => Ok (reclass_step lulc_data reclass_data (fst kv, new_val))
  | Err e => Err e
  end.

(** The [except] clause logs the error and re-raises it. *)
Definition prepare_lulc_for_invest (src : raster)
    (reclassify_table : option (list (Z * Z))) : result raster :=
  let lulc_data := data src in
  let lulc_data :=
    match reclassify_table with
    | Some rows =>
        let reclass_dict := dict_of_rows rows in
        for_each (reclass_assign (dtype src) lulc_data) reclass_dict lulc_data
    | None => Ok lulc_data
    end in
  match lulc_data with
  | Ok lulc_data =>
      (* meta.update({"driver": "GTiff", "compress": "lzw", "nodata": 0}) *)
      Ok (mk_raster lulc_data (Some 0) (dtype src))
  | Err e => Err e
  end.

(** The value a table assigns to [o]: the [new_value] of its last row whose
    [original_value] is [o]. *)
Definition lookup_last (rows : list (Z * Z)) (o : Z) : option Z :=
  fold_left (fun acc '(k, v) => if k =? o then Some v else acc) rows None.

(** [rasterio.mask.mask(src, geoms, crop=False, invert=False)], first band:
    the raster's values at pixels inside the geometries, the fill value
    elsewhere. [inside] is the per-pixel inside flag rasterio computes from
    the geometries on the raster grid; the fill value is the dataset's
    nodata value, 0 when it has none. *)
Definition rio_mask (src : raster) (inside : list bool) : list Z :=
  let fill := match nodata src with Some n => n | None => 0 end in
  map (fun '(v, ins) => if ins : bool then v else fill) (combine (data src) inside).

(** [scenario_data[area_mask] = new_value] with
    [area_mask = area_mask[0].astype(bool)]: a nonzero value is [True]. *)
Definition scenario_step (scenario_data area_mask : list Z) (new_value : Z)
    : list Z :=
  map (fun '(s, m) => if m =? 0 then s else new_value)
      (combine scenario_data area_mask).

(** One iteration of [for i, (area, new_value) in enumerate(zip(...))]:
    the mask of [area], then [new_value] stored into [scenario_data], an
    array of the raster's dtype. *)
Definition scenario_assign (src : raster) (scenario_data : list Z)
    (av : list bool * Z) : result (list Z) :=
  let area_mask := rio_mask src (fst av) in
  match np_int_for (dtype src) (snd av) with
  | Ok new_value => Ok (scenario_step scenario_data area_mask new_value)
  | Err e => Err e
  end.

(** The [except] clause logs the error and re-raises it. *)
Definition create_scenario_lulc (src : raster) (change_areas : list (list bool))
    (new_values : list Z) : result raster :=
  match for_each (scenario_assign src) (combine change_areas new_values) (data src) with
  | Ok scenario_data =>
      (* the scenario raster is written with [meta = src.meta.copy()] *)
      Ok (mk_raster scenario_data (nodata src) (dtype src))
  | Err e => Err e
  end.

(** One step of [lookup_last]. *)
Definition lookup_step (o : Z) (acc : option Z) (kv : Z * Z) : option Z :=
  let '(k, v) := kv in if k =? o then Some v else acc.

(** The per-pixel effect of the reclassification loop on an original
    value [o] whose running value is [r]. *)
Definition pix_fold (d : list (Z * Z)) (o r : Z) : Z :=
  fold_left (fun r kv => if o =? fst kv then snd kv else r) d r.

(** What the spec asks of a scenario raster: a pixel inside the i-th change
    area takes the i-th new value (the last such area wins), any other pixel
    keeps the base value; the metadata is the base raster's. *)
Definition scenario_spec (src : raster) (change_areas : list (list bool))
    (new_values : list Z) : raster :=
  let pixel i v :=
    fold_left (fun acc '(area, nv) => if nth i area false then nv else acc)
              (combine change_areas new_values) v in
  mk_raster (List.map (fun '(i, v) => pixel i v)
                      (combine (seq 0 (List.length (data src))) (data src)))
            (nodata src) (dtype src).

(** ** [carbon.py]: files *)

(** A carbon pools table as [pd.read_csv] loads it: its column names and
    its [lucode] column. *)
Record csv_table := mk_csv { columns : list string; lucodes : list Z }.

(** The files the functions see. [read_raster] and [read_csv] give [None]
    where rasterio or pandas fails on an existing path; [mkdir_error] is the
    error [os.makedirs] meets on a path that does not exist, if any;
    [is_dir] tells the existing paths that are directories; [samefile] is
    [os.path.samefile] on two existing paths (two names of one file, such
    as [ws] and [./ws]); [copy_error] is the error [shutil.copy2] meets
    copying an existing file to a distinct one, if any. *)
Record filesystem := mk_fs {
  path_exists : string -> bool;
  read_raster : string -> option (list Z);
  read_csv : string -> option csv_table;
  mkdir_error : string -> option exn;
  is_dir : string -> bool;
  samefile : string -> string -> bool;
  copy_error : string -> string -> option exn
}.

(** [os.makedirs(p)]: [os.makedirs('')] raises [FileNotFoundError]. *)
Definition os_makedirs (fs : filesystem) (p : string) : option exn :=
  if String.eqb p "" then Some (FileNotFoundError p) else mkdir_error fs p.

Fixpoint insert_sorted (x : Z) (l : list Z) : list Z :=
  match l with
  | [] => [x]
  | y :: l' => if x <? y then x :: l else if x =? y then l else y :: insert_sorted x l'
  end.

(** [np.unique]: the sorted distinct values. *)
Definition np_unique (l : list Z) : list Z := fold_right insert_sorted [] l.

Definition required_cols : list string :=
  ["lucode"; "c_above"; "c_below"; "c_soil"; "c_dead"]%string.

Record invest_args := mk_args {
  lulc_cur_path : string;
  carbon_pools_path : string;
  workspace_dir : string
}.

Definition mem_string (s : string) (l : list string) : bool :=
  existsb (String.eqb s) l.

Definition mem_Z (z : Z) (l : list Z) : bool := existsb (Z.eqb z) l.

(** [[col for col in required_cols if col not in carbon_df.columns]]. *)
Definition missing_columns (carbon_df : csv_table) : list string :=
  filter (fun col => negb (mem_string col (columns carbon_df))) required_cols.

(** [[val for val in unique_values if val not in carbon_df['lucode'].values
    and val != 0]]. *)
Definition missing_classes (unique_values : list Z) (carbon_df : csv_table) : list Z :=
  filter (fun v => negb (mem_Z v (lucodes carbon_df)) && negb (v =? 0)) unique_values.

Definition prepare_carbon_inputs (fs : filesystem)
    (lulc_path carbon_pools_csv output_dir : string) (st : logger)
    : result invest_args * logger :=
  let st := log INFO "Preparing Carbon model inputs..." [] st in
  if negb (path_exists fs lulc_path) then (Err (FileNotFoundError lulc_path), st) else
  if negb (path_exists fs carbon_pools_csv) then
    (Err (FileNotFoundError carbon_pools_csv), st) else
  match (if path_exists fs output_dir then None else os_makedirs fs output_dir) with
  | Some e => (Err e, st)
  | None =>
    (* try: read the LULC raster / except Exception: log, raise *)
    match read_raster fs lulc_path with
    | None =>
        (Err (ReadError lulc_path), log ERROR "Error reading LULC raster" [] st)
    | Some lulc_data =>
      let unique_values := np_unique lulc_data in
      let st := log INFO "LULC raster loaded" [] st in
      (* try: read and check the carbon pools CSV / except Exception: log, raise *)
      match read_csv fs carbon_pools_csv with
      | None =>
          (Err (ReadError carbon_pools_csv),
           log ERROR "Error reading carbon pools CSV" [] st)
      | Some carbon_df =>
        let missing_cols := missing_columns carbon_df in
        if negb (Nat.eqb (List.length missing_cols) 0) then
          (Err (ValueError "Carbon pools CSV missing required columns"),
           log ERROR "Error reading carbon pools CSV" [] st)
        else
          let missing_values := missing_classes unique_values carbon_df in
          let st := if negb (Nat.eqb (List.length missing_values) 0)
                    then log WARNING "Carbon data missing for LULC classes" [] st
                    else st in
          let st := log INFO "Carbon pools data loaded" [] st in
          (Ok (mk_args lulc_path carbon_pools_csv output_dir), st)
      end
    end
  end.

(** [run_carbon_model]: the InVEST run ([natcap.invest.carbon.execute], an
    external library) is given by its outcome; its error is logged and
    re-raised, an error of the summary is not caught. *)
Definition run_carbon_model {R S : Type} (execute : invest_args -> result R)
    (summarize : string -> result S) (args : invest_args) (st : logger)
    : result (R * S) * logger :=
  let st := log INFO "Running InVEST Carbon Storage and Sequestration model..." [] st in
  match execute args with
  | Err e => (Err e, log ERROR "Error executing carbon model" [] st)
  | Ok carbon_results =>
      let st := log INFO "Carbon model execution completed successfully" [] st in
      match summarize (workspace_dir args) with
      | Err e => (Err e, st)
      | Ok results_summary => (Ok (carbon_results, results_summary), st)
      end
  end.

Definition level_eqb (a b : level) : bool :=
  match a, b with
  | INFO, INFO | WARNING, WARNING | ERROR, ERROR => true
  | _, _ => false
  end.

(** Whether the log holds a record of level [l]. *)
Definition has_level (l : level) (st : logger) : bool :=
  existsb (fun r => level_eqb (lvl r) l) st.

(** ** [carbon.py]: summaries of a carbon raster *)

(** A carbon raster: its first band, flattened, and [src.res]. *)
Record carbon_raster := mk_craster {
  cvalues : list float;
  res_x : float;
  res_y : float;
  cnodata : option float
}.

Record carbon_summary := {
  mean_carbon : float;
  median_carbon : float;
  min_carbon : float;
  max_carbon : float;
  total_carbon : float;
  pixel_count : Z;
  pixel_size : float;
  area_ha : option float   (* the key is absent when [None] *)
}.

Section Summaries.

(** numpy's reductions on the raster's dtype, read back as Python floats:
    [np.mean], [np.median], [np.sum], and [np.min], [np.max], which raise
    [ValueError] on an empty array ([None] here). *)
Variables (r_mean r_median r_sum : list float -> float)
          (r_min r_max : list float -> option float).

(** [carbon_data[carbon_data > 0]]. *)
Definition positive_pixels (xs : list float) : list float :=
  filter (fun v => gtb v zero) xs.

(** The dictionary literal built from [valid_data]; [np.min] raises before
    [np.max] is evaluated. *)
Definition summary_of (valid_data : list float) (rx ry : float)
    : result carbon_summary :=
  let mean := r_mean valid_data in
  let median := r_median valid_data in
  match r_min valid_data with
  | None => Err (ValueError "zero-size array to reduction operation minimum")
  | Some mn =>
  match r_max valid_data with
  | None => Err (ValueError "zero-size array to reduction operation maximum")
  | Some mx =>
      Ok {| mean_carbon := mean; median_carbon := median; min_carbon := mn;
            max_carbon := mx; total_carbon := r_sum valid_data;
            pixel_count := Z.of_nat (List.length valid_data);
            pixel_size := (rx * ry)%py; area_ha := None |}
  end
  end.

Definition with_area (s : carbon_summary) (a : float) : carbon_summary :=
  {| mean_carbon := mean_carbon s; median_carbon := median_carbon s;
     min_carbon := min_carbon s; max_carbon := max_carbon s;
     total_carbon := total_carbon s; pixel_count := pixel_count s;
     pixel_size := pixel_size s; area_ha := Some a |}.

(** [summary['pixel_count'] * pixel_size_m2 / 10000] with
    [pixel_size_m2 = src.res[0] * src.res[1]]. *)
Definition area_of (count : Z) (rx ry : float) : float :=
  (of_int count * (rx * ry) / of_int 10000)%py.

(** [summarize_carbon_results]; [total_carbon] is the raster at
    [workspace_dir/total_carbon.tif], [None] when the file does not exist.
    The closing [logger.info] formats [summary.get('area_ha', 'N/A')] with
    [:.2f], which raises [ValueError] on the string ['N/A']. *)
Definition summarize_carbon_results (total_carbon_tif : option carbon_raster)
    (st : logger) : result carbon_summary * logger :=
  let st := log INFO "Summarizing carbon results..." [] st in
  match total_carbon_tif with
  | None => (Err (FileNotFoundError "total_carbon.tif"), st)
  | Some src =>
    let valid_data := positive_pixels (cvalues src) in
    match summary_of valid_data (res_x src) (res_y src) with
    | Err e => (Err e, st)
    | Ok summary =>
      let summary :=
        if eqb (res_x src) (res_y src)
        then with_area summary (area_of (pixel_count summary) (res_x src) (res_y src))
        else summary in
      match area_ha summary with
      | None => (Err (ValueError "Unknown format code 'f' for object of type 'str'"), st)
      | Some a =>
          (Ok summary, log INFO "Carbon summary" [mean_carbon summary; total_carbon summary; a] st)
      end
    end
  end.

(** [mask(src, shapes, crop=True)], first band: the pixels of the window
    bounding the region, given with rasterio's inside flags; pixels outside
    the region are filled with the nodata value, 0 when there is none. *)
Definition rio_mask_crop (src : carbon_raster) (window : list (float * bool))
    : list float :=
  let fill := match cnodata src with Some n => n | None => zero end in
  map (fun '(v, ins) => if ins : bool then v else fill) window.

Definition extract_carbon_for_region (src : carbon_raster)
    (window : list (float * bool)) (st : logger)
    : result (list float * carbon_summary) * logger :=
  let st := log INFO "Extracting carbon values for region" [] st in
  let masked_data := rio_mask_crop src window in
  let valid_data := positive_pixels masked_data in
  match summary_of valid_data (res_x src) (res_y src) with
  | Err e => (Err e, log ERROR "Error extracting carbon values for region" [] st)
  | Ok summary =>
      let summary :=
        with_area summary (area_of (pixel_count summary) (res_x src) (res_y src)) in
      (Ok (valid_data, summary),
       log INFO "Extracted pixels" [mean_carbon summary; total_carbon summary] st)
  end.

End Summaries.

(** ** Concrete numpy reductions for small float64 arrays

    For fewer than 8 elements numpy's pairwise summation is a sequential
    loop; [np.min], [np.max] and [np.median] below are for arrays without
    NaN. They only serve to run the functions on concrete inputs. *)
Definition np_sum_small (xs : list float) : float :=
  fold_left fadd xs (S754_zero true).

Definition np_min_small (xs : list float) : option float :=
  match xs with
  | [] => None
  | x :: t => Some (fold_left (fun m y => if SFltb y m then y else m) t x)
  end.

Definition np_max_small (xs : list float) : option float :=
  match xs with
  | [] => None
  | x :: t => Some (fold_left (fun m y => if SFltb m y then y else m) t x)
  end.

Fixpoint finsert (x : float) (l : list float) : list float :=
  match l with
  | [] => [x]
  | y :: t => if SFltb y x then y :: finsert x t else x :: l
  end.

Definition np_median_small (xs : list float) : float :=
  let s := fold_right finsert [] xs in
  let n := List.length s in
  match n with
  | O => nan
  | _ => if Nat.odd n then nth (n / 2) s nan
         else np_mean np_sum_small [nth (n / 2 - 1) s nan; nth (n / 2) s nan]
  end.

(** The literals [0.3] and [0.04], correctly rounded quotients. *)
Definition f0_3 : float := (of_int 3 / of_int 10)%py.
Definition f0_04 : float := (of_int 1 / of_int 25)%py.

(** A small set of files: a LULC raster and a complete carbon pools table. *)
Definition demo_fs : filesystem := mk_fs
  (fun p => String.eqb p "lulc.tif" || String.eqb p "carbon_pools.csv")
  (fun p => if String.eqb p "lulc.tif" then Some [0; 1; 2] else None)
  (fun p => if String.eqb p "carbon_pools.csv" then Some (mk_csv required_cols [1]) else None)
  (fun _ => None) (fun _ => false) (fun _ _ => false) (fun _ _ => None).

(** A tree of [files] and [dirs] in which every read fails and every
    directory creation and copy succeeds. *)
Definition files_fs (files dirs : list string) : filesystem := mk_fs
  (fun p => existsb (String.eqb p) (files ++ dirs))
  (fun _ => None) (fun _ => None) (fun _ => None)
  (fun p => existsb (String.eqb p) dirs) (fun _ _ => false) (fun _ _ => None).

(** ** [preprocess.py]: Python strings and paths

    Strings are ASCII strings; [str.lower] maps [A-Z] to [a-z]. *)

Definition lower_char (c : Ascii.ascii) : Ascii.ascii :=
  let n := Ascii.nat_of_ascii c in
  if (65 <=? n)%nat && (n <=? 90)%nat then Ascii.ascii_of_nat (n + 32) else c.

Fixpoint str_lower (s : string) : string :=
  match s with
  | EmptyString => EmptyString
  | String c s' => String (lower_char c) (str_lower s')
  end.

(** [kw in s] for strings: [kw] occurs in [s] at some position. *)
Fixpoint str_contains (kw s : string) : bool :=
  prefix kw s || match s with EmptyString => false | String _ s' => str_contains kw s' end.

Fixpoint uint_to_string (d : Decimal.uint) : string :=
  match d with
  | Decimal.Nil => ""
  | Decimal.D0 d => String "0" (uint_to_string d)
  | Decimal.D1 d => String "1" (uint_to_string d)
  | Decimal.D2 d => String "2" (uint_to_string d)
  | Decimal.D3 d => String "3" (uint_to_string d)
  | Decimal.D4 d => String "4" (uint_to_string d)
  | Decimal.D5 d => String "5" (uint_to_string d)
  | Decimal.D6 d => String "6" (uint_to_string d)
  | Decimal.D7 d => String "7" (uint_to_string d)
  | Decimal.D8 d => String "8" (uint_to_string d)
  | Decimal.D9 d => String "9" (uint_to_string d)
  end.

(** [str(v)] for an integer [v]. *)
Definition py_str_int (z : Z) : string :=
  match Z.to_int z with
  | Decimal.Pos u => uint_to_string u
  | Decimal.Neg u => String "-" (uint_to_string u)
  end.

Definition is_slash (c : Ascii.ascii) : bool := Ascii.eqb c "/"%char.

Fixpoint drop_while {A : Type} (f : A -> bool) (l : list A) : list A :=
  match l with
  | [] => []
  | x :: t => if f x then drop_while f t else l
  end.

(** [os.path.dirname] (posixpath): [head = p[:p.rfind('/') + 1]], with
    trailing slashes removed unless [head] consists of slashes only. *)
Definition os_path_dirname (p : string) : string :=
  let head := List.rev (drop_while (fun c => negb (is_slash c))
                                   (List.rev (list_ascii_of_string p))) in
  if forallb is_slash head then string_of_list_ascii head
  else string_of_list_ascii (List.rev (drop_while is_slash (List.rev head))).

(** [os.path.join(a, b)] (posixpath) for two components. *)
Definition os_path_join (a b : string) : string :=
  match b with
  | String c _ => if is_slash c then b else
      match List.rev (list_ascii_of_string a) with
      | [] => b
      | l :: _ => if is_slash l then a ++ b else a ++ "/" ++ b
      end
  | EmptyString =>
      match List.rev (list_ascii_of_string a) with
      | [] => b
      | l :: _ => if is_slash l then a ++ b else a ++ "/" ++ b
      end
  end.

(** Errors of [preprocess.py] beyond those of [carbon.py]: the
    [UnboundLocalError] of a local name read before assignment, and
    [shutil.SameFileError]. *)
Inductive py_exn :=
| Base (e : exn)
| UnboundLocalError (name : string)
| SameFileError (path : string).

Inductive outcome (A : Type) := Done (a : A) | Raised (e : py_exn).
Arguments Done {A} a.
Arguments Raised {A} e.

(** [os.makedirs(d, exist_ok=True)]: an existing directory is accepted, an
    existing path that is not a directory raises [FileExistsError],
    [os.makedirs('')] raises [FileNotFoundError]. *)
Definition os_makedirs_exist_ok (fs : filesystem) (d : string) : option exn :=
  if String.eqb d "" then Some (FileNotFoundError d)
  else if path_exists fs d then
    (if is_dir fs d then None else Some (FileExistsError d))
  else mkdir_error fs d.


(** ** [preprocess.py]: LULC attribute and carbon pool tables *)

(** [dict.get] on a Python dict with unique keys, as an association list. *)
Fixpoint assoc {V : Type} (d : list (Z * V)) (k : Z) : option V :=
  match d with
  | [] => None
  | (k', v) :: d' => if k' =? k then Some v else assoc d' k
  end.

(** [create_lulc_attribute_table], given the first band of the LULC raster;
    the rows [(value, class_name)] of the CSV it writes. [class_names] is
    [None] or a dict; an empty dict is falsy in [if class_names:]. *)
Definition create_lulc_attribute_table (fs : filesystem) (lulc_data : list Z)
    (output_csv : string) (class_names : option (list (Z * string))) (st : logger)
    : outcome (list (Z * string)) * logger :=
  let st := log INFO "Creating LULC attribute table" [] st in
  let unique_values := filter (fun v => 0 <? v) (np_unique lulc_data) in
  let st := log INFO "Found unique LULC classes" [] st in
  let names :=
    match class_names with
    | Some ((_ :: _) as d) =>
        map (fun v => match assoc d v with Some n => n | None => "Unknown"%string end)
            unique_values
    | _ => map (fun v => ("Class " ++ py_str_int v)%string) unique_values
    end in
  match os_makedirs_exist_ok fs (os_path_dirname output_csv) with
  | Some e => (Raised (Base e), log ERROR "Error creating LULC attribute table" [] st)
  | None => (Done (combine unique_values names),
             log INFO "LULC attribute table saved" [] st)
  end.

Definition pool_names : list string := ["c_above"; "c_below"; "c_soil"; "c_dead"]%string.

(** The placeholder pools [(c_above, c_below, c_soil, c_dead)] the default
    branch of [create_carbon_pool_table] gives a class name, keyword by
    keyword in the order of the source. *)
Definition default_pools (lulc_name : string) : list Z :=
  let class_name := str_lower lulc_name in
  if str_contains "forest" class_name then
    if str_contains "primary" class_name then [200; 40; 100; 20]
    else if str_contains "secondary" class_name then [150; 35; 90; 15]
    else [0; 0; 0; 0]
  else if str_contains "shrub" class_name then [70; 20; 60; 5]
  else if str_contains "grass" class_name || str_contains "savanna" class_name
    then [15; 5; 40; 1]
  else if str_contains "crop" class_name then [5; 2; 30; 0]
  else if str_contains "urban" class_name || str_contains "built" class_name
    then [2; 1; 20; 0]
  else if str_contains "mine" class_name then [0; 0; 5; 0]
  else [0; 0; 0; 0].

(** A row of the carbon pool table: [lucode], [lulc_name] and the pool
    cells that hold a value (a pool absent from the list is NaN). *)
Record pool_row := mk_pool_row {
  lucode : Z;
  lulc_name : string;
  pools : list (string * Z)
}.

Fixpoint cell_set (cells : list (string * Z)) (pool : string) (v : Z)
    : list (string * Z) :=
  match cells with
  | [] => [(pool, v)]
  | (p, w) :: cells' =>
      if String.eqb p pool then (p, v) :: cells' else (p, w) :: cell_set cells' pool v
  end.

(** [carbon_df.loc[carbon_df['lucode'] == code, pool] = value]. *)
Definition loc_set (df : list pool_row) (code : Z) (pool : string) (v : Z)
    : list pool_row :=
  map (fun r => if lucode r =? code
                then mk_pool_row (lucode r) (lulc_name r) (cell_set (pools r) pool v)
                else r) df.

(** [create_carbon_pool_table], given the rows [(value, class_name)] of the
    LULC classes CSV; [carbon_values] maps a lucode to its pools. *)
Definition create_carbon_pool_table (fs : filesystem) (lulc_df : list (Z * string))
    (output_csv : string) (carbon_values : option (list (Z * list (string * Z))))
    (st : logger) : outcome (list pool_row) * logger :=
  let st := log INFO "Creating carbon pool table" [] st in
  let carbon_df := map (fun '(v, n) => mk_pool_row v n []) lulc_df in
  let carbon_df :=
    match carbon_values with
    | Some ((_ :: _) as cv) =>
        fold_left (fun df code =>
                     match assoc cv code with
                     | Some pv => fold_left (fun df '(pool, v) => loc_set df code pool v) pv df
                     | None => df
                     end)
                  (map lucode carbon_df) carbon_df
    | _ =>
        map (fun r => mk_pool_row (lucode r) (lulc_name r)
                                  (combine pool_names (default_pools (lulc_name r))))
            carbon_df
    end in
  match os_makedirs_exist_ok fs (os_path_dirname output_csv) with
  | Some e => (Raised (Base e), log ERROR "Error creating carbon pool table" [] st)
  | None => (Done carbon_df, log INFO "Carbon pool table saved" [] st)
  end.

(** The choice of the restoration class in [prepare_all_data]:
    [lulc_classes[lulc_classes['class_name'].str.contains('forest', case=False)]],
    its first [value], or the placeholder 1 (also when the classes CSV does
    not exist, [None]). *)
Definition forest_value_of (lulc_classes : option (list (Z * string))) : Z :=
  match lulc_classes with
  | None => 1
  | Some rows =>
      match filter (fun '(_, n) => str_contains "forest" (str_lower n)) rows with
      | (v, _) :: _ => v
      | [] => 1
      end
  end.


(** ** [preprocess.py]: [extract_invest_results] *)

(** The InVEST outputs a model copies: its primary raster and the optional
    secondary one, each with the name it gets in [output_dir], and the key
    it gets in the results. *)
Record output_spec := mk_output {
  src_name : string; dst_name : string; result_key : string
}.

Definition model_outputs (model_name : string) : option (output_spec * output_spec) :=
  if String.eqb model_name "carbon" then
    Some (mk_output "total_carbon.tif" "total_carbon.tif" "total_carbon",
          mk_output "net_present_value.tif" "net_present_value.tif" "npv")
  else if String.eqb model_name "habitat_quality" then
    Some (mk_output "quality.tif" "habitat_quality.tif" "habitat_quality",
          mk_output "degradation.tif" "habitat_degradation.tif" "degradation")
  else if String.eqb model_name "sdr" then
    Some (mk_output "sed_export.tif" "sediment_export.tif" "sediment_export",
          mk_output "sed_retention.tif" "sediment_retention.tif" "sediment_retention")
  else None.

(** [shutil.copy2(src, dst)], called on an existing [src]: it raises
    [SameFileError] when [os.path.samefile(src, dst)] holds (always for two
    equal paths). *)
Definition shutil_copy2 (fs : filesystem) (src dst : string) : option py_exn :=
  if String.eqb src dst || samefile fs src dst then Some (SameFileError src)
  else option_map Base (copy_error fs src dst).

Section ExtractResults.

(** numpy's reductions for the carbon summary ([np.min], [np.max] raise on
    an empty array), and the total carbon raster's values at a path
    ([None] when rasterio fails on it). *)
Variables (r_mean r_sum r_std : list float -> float)
          (r_min r_max : list float -> option float)
          (read_values : string -> option (list float)).

(** The summary written to [carbon_summary.json]. *)
Definition carbon_json (valid_data : list float) : outcome (list (string * float)) :=
  match r_min valid_data, r_max valid_data with
  | Some mn, Some mx =>
      Done [("mean_carbon", r_mean valid_data); ("total_carbon", r_sum valid_data);
            ("min_carbon", mn); ("max_carbon", mx); ("std_carbon", r_std valid_data)]%string
  | None, _ => Raised (Base (ValueError "zero-size array to reduction operation minimum"))
  | _, None => Raised (Base (ValueError "zero-size array to reduction operation maximum"))
  end.

(** The body of the [try] block: the results dict, or the exception it
    raises. [shutil] is assigned only by the [import shutil] under the
    primary raster's [if]; reading it before raises [UnboundLocalError]. *)
Definition extract_body (fs : filesystem) (invest_workspace output_dir model_name : string)
    : outcome (list (string * string)) :=
  match os_makedirs_exist_ok fs output_dir with
  | Some e => Raised (Base e)
  | None =>
    match model_outputs model_name with
    | None => Done []
    | Some (primary, secondary) =>
      let p_src := os_path_join invest_workspace (src_name primary) in
      let p_dst := os_path_join output_dir (dst_name primary) in
      let step1 :=
        if path_exists fs p_src then
          match shutil_copy2 fs p_src p_dst with
          | Some e => Raised e
          | None => Done (true, [(result_key primary, p_dst)])
          end
        else Done (false, []) in
      match step1 with
      | Raised e => Raised e
      | Done (shutil_bound, results) =>
        let s_src := os_path_join invest_workspace (src_name secondary) in
        let s_dst := os_path_join output_dir (dst_name secondary) in
        let step2 :=
          if path_exists fs s_src then
            if negb shutil_bound then Raised (UnboundLocalError "shutil") else
            match shutil_copy2 fs s_src s_dst with
            | Some e => Raised e
            | None => Done (results ++ [(result_key secondary, s_dst)])
            end
          else Done results in
        match step2 with
        | Raised e => Raised e
        | Done results =>
          if String.eqb model_name "carbon" && shutil_bound then
            (* the copy of total_carbon.tif holds the workspace raster's values *)
            match read_values p_src with
            | None => Raised (Base (ReadError p_dst))
            | Some carbon_data =>
              match carbon_json (positive_pixels carbon_data) with
              | Raised e => Raised e
              | Done _ =>
                  Done (results ++ [("summary"%string,
                                     os_path_join output_dir "carbon_summary.json")])
              end
            end
          else Done results
        end
      end
    end
  end.

Definition extract_invest_results (fs : filesystem)
    (invest_workspace output_dir model_name : string) (st : logger)
    : outcome (list (string * string)) * logger :=
  let st := log INFO "Extracting results" [] st in
  match extract_body fs invest_workspace output_dir model_name with
  | Raised e => (Raised e, log ERROR "Error extracting InVEST results" [] st)
  | Done results => (Done results, log INFO "Extracted results" [] st)
  end.

End ExtractResults.

(** The summary [summary_of] builds from [valid_data] with the demo
    reductions and 30 m square pixels. *)
Definition mk_summary_demo (valid : list float) : carbon_summary :=
  {| mean_carbon := np_mean np_sum_small valid;
     median_carbon := np_median_small valid;
     min_carbon := match np_min_small valid with Some m => m | None => zero end;
     max_carbon := match np_max_small valid with Some m => m | None => zero end;
     total_carbon := np_sum_small valid;
     pixel_count := Z.of_nat (List.length valid);
     pixel_size := (of_int 30 * of_int 30)%py; area_ha := None |}.

(** The characters of the default class names ["Class <value>"], before
    and after [str.lower]. *)
Definition class_label_char (c : Ascii.ascii) : bool :=
  existsb (Ascii.eqb c) (list_ascii_of_string "Clas 0123456789-").

Definition lowered_label_char (c : Ascii.ascii) : bool :=
  existsb (Ascii.eqb c) (list_ascii_of_string "clas 0123456789-").

(** * Properties *)

Example co2_factor_is_367_over_100 : co2_factor = (of_int 367 / of_int 100)%py.
Proof. vm_compute. reflexivity. Qed.

Example f0_3_literal : f0_3 = S754_finite false 5404319552844595 (-54).
Proof. vm_compute. reflexivity. Qed.

(** ** Valuation *)

(** C1: for a scalar carbon density [c], area [a], price [p] and discount
    rate [r > 0], [calculate_carbon_value] returns [c*a], [c*3.67],
    [c*a*3.67], [c*3.67*p], [c*a*3.67*p], [c*3.67*p/r] and [c*a*3.67*p/r],
    each evaluated left to right as written. *)
Theorem calculate_carbon_value_scalar :
  forall np_sum c a p r st, gtb r zero = true ->
  let res := fst (calculate_carbon_value np_sum (CScalar c) a p r st) in
  total_carbon_mg res = (c * a)%py /\
  mean_co2_mgha res = (c * co2_factor)%py /\
  total_co2_mg res = (c * a * co2_factor)%py /\
  value_per_ha_usd res = (c * co2_factor * p)%py /\
  total_value_usd res = (c * a * co2_factor * p)%py /\
  npv_per_ha_usd res = (c * co2_factor * p / r)%py /\
  npv_total_usd res = (c * a * co2_factor * p / r)%py.
Proof.
  intros np_sum c a p r st Hr res. subst res.
  unfold calculate_carbon_value; cbn beta iota zeta.
  rewrite Hr. repeat split.
Qed.

Lemma calculate_carbon_value_scalar_witness :
  gtb f0_04 zero = true /\
  (let res := fst (calculate_carbon_value np_sum_small (CScalar (of_int 150))
                     (of_int 100) (of_int 40) f0_04 []) in
   total_carbon_mg res = (of_int 150 * of_int 100)%py /\
   mean_co2_mgha res = (of_int 150 * co2_factor)%py /\
   total_co2_mg res = (of_int 150 * of_int 100 * co2_factor)%py /\
   value_per_ha_usd res = (of_int 150 * co2_factor * of_int 40)%py /\
   total_value_usd res = (of_int 150 * of_int 100 * co2_factor * of_int 40)%py /\
   npv_per_ha_usd res = (of_int 150 * co2_factor * of_int 40 / f0_04)%py /\
   npv_total_usd res = (of_int 150 * of_int 100 * co2_factor * of_int 40 / f0_04)%py).
Proof.
  split.
  - vm_compute. reflexivity.
  - apply (calculate_carbon_value_scalar np_sum_small (of_int 150) (of_int 100)
             (of_int 40) f0_04 []).
    vm_compute. reflexivity.
Defined.

(** ** Scenario comparison *)

(** C2 counterexample: with baseline mean [b = 2^1020] and scenario mean
    [s = 3 * 2^1020], [percent_change] is [(s - b) / b * 100 = 200], while
    [100 * (s - b) / b] overflows to [inf] in its first product. *)
Lemma compare_scenarios_percent_order_counterexample :
  let b := pow2 1020 in
  let s := (of_int 3 * pow2 1020)%py in
  neb b zero = true /\
  percent_change (fst (compare_scenarios np_sum_small (CScalar b) (CScalar s)
                         (of_int 100) (of_int 40) []))
  <> (of_int 100 * (s - b) / b)%py.
Proof.
  cbv zeta. split.
  - vm_compute. reflexivity.
  - vm_compute. discriminate.
Qed.

(** C2 (amended): for baseline and scenario means [b] and [s] (the scalar
    itself, or the array's [np.mean]), area [a] and price [p],
    [compare_scenarios] returns [s - b], [(s - b)*a], [(s - b)*3.67],
    [(s - b)*a*3.67], [(s - b)*3.67*p], [(s - b)*a*3.67*p], each evaluated
    left to right, and, when [b] is nonzero, [percent_change = (s - b)/b*100]
    (the quotient taken before the scaling by 100); [inf] when [b] is 0. *)
Theorem compare_scenarios_deltas :
  forall np_sum bc sc a p st,
  let b := mean_of np_sum bc in
  let s := mean_of np_sum sc in
  let res := fst (compare_scenarios np_sum bc sc a p st) in
  carbon_diff_mgha res = (s - b)%py /\
  carbon_diff_total_mg res = ((s - b) * a)%py /\
  co2_diff_mgha res = ((s - b) * co2_factor)%py /\
  co2_diff_total_mg res = ((s - b) * a * co2_factor)%py /\
  value_diff_per_ha_usd res = ((s - b) * co2_factor * p)%py /\
  value_diff_total_usd res = ((s - b) * a * co2_factor * p)%py /\
  percent_change res = (if neb b zero then ((s - b) / b * of_int 100)%py else inf).
Proof.
  intros np_sum bc sc a p st b s res. subst b s res.
  unfold compare_scenarios; cbn beta iota zeta. repeat split.
Qed.

(** ** Division guards *)

(** Helper: the NPV fields are quotients by the discount rate exactly when
    it is positive, [inf] otherwise. *)
Lemma calculate_carbon_value_npv_guard :
  forall np_sum cd a p r st,
  let res := fst (calculate_carbon_value np_sum cd a p r st) in
  npv_per_ha_usd res =
    (if gtb r zero then (value_per_ha_usd res / r)%py else inf) /\
  npv_total_usd res =
    (if gtb r zero then (total_value_usd res / r)%py else inf).
Proof.
  intros np_sum cd a p r st res. subst res.
  unfold calculate_carbon_value; destruct cd; cbn beta iota zeta; split; reflexivity.
Qed.

(** C5: on an empty array, [calculate_carbon_value] divides by zero:
    [np.mean] of the empty array is [0.0 / 0], a NaN, which becomes
    [mean_carbon_mgha] (and makes the per-hectare value and NPV NaN), although
    the total beside it is guarded by [len(carbon_data) > 0]. *)
Theorem calculate_carbon_value_empty_array_divides_by_zero :
  let res := fst (calculate_carbon_value np_sum_small (CArray []) (of_int 100)
                    (of_int 40) f0_04 []) in
  mean_carbon_mgha res = (np_sum_small [] / of_int 0)%py /\
  of_int 0 = zero /\
  mean_carbon_mgha res = nan /\
  value_per_ha_usd res = nan /\
  npv_per_ha_usd res = nan /\
  total_carbon_mg res = zero.
Proof. vm_compute. repeat split. Qed.

(** ** Array and scalar paths of [calculate_carbon_value] *)

(** C7 counterexample: for [x = [2^1000; 2^1000]] and [a = 2^23],
    [mean(x) * a = 2^1023] is finite, while the array path's
    [sum(x) * a / len(x)] overflows to [inf] before the division, so the
    array and scalar calls disagree on [total_carbon_mg]. *)
Lemma calculate_carbon_value_array_scalar_counterexample :
  let x := [pow2 1000; pow2 1000] in
  fst (calculate_carbon_value np_sum_small (CArray x) (pow2 23) (of_int 40) f0_04 [])
  <> fst (calculate_carbon_value np_sum_small (CScalar (np_mean np_sum_small x))
            (pow2 23) (of_int 40) f0_04 []).
Proof.
  cbv zeta. intro H. apply (f_equal total_carbon_mg) in H.
  vm_compute in H. discriminate H.
Qed.

(** C7 (amended): the array path agrees with the scalar path at [mean(x)] on
    the per-hectare fields; its total carbon is [sum(x) * a / len(x)],
    evaluated in that order ([0] for an empty array), and the other totals
    follow from it by the same chain as in the scalar path. *)
Theorem calculate_carbon_value_array_path :
  forall np_sum xs a p r st,
  let arr := fst (calculate_carbon_value np_sum (CArray xs) a p r st) in
  let sca := fst (calculate_carbon_value np_sum (CScalar (np_mean np_sum xs)) a p r st) in
  let n := of_int (Z.of_nat (List.length xs)) in
  mean_carbon_mgha arr = mean_carbon_mgha sca /\
  mean_co2_mgha arr = mean_co2_mgha sca /\
  value_per_ha_usd arr = value_per_ha_usd sca /\
  npv_per_ha_usd arr = npv_per_ha_usd sca /\
  total_carbon_mg arr =
    (match xs with [] => zero | _ => (np_sum xs * a / n)%py end) /\
  total_co2_mg arr = (total_carbon_mg arr * co2_factor)%py /\
  total_value_usd arr = (total_carbon_mg arr * co2_factor * p)%py /\
  npv_total_usd arr =
    (if gtb r zero then (total_carbon_mg arr * co2_factor * p / r)%py else inf).
Proof.
  intros np_sum xs a p r st arr sca n. subst arr sca n.
  unfold calculate_carbon_value; cbn beta iota zeta.
  destruct xs as [|x xs']; cbn beta iota zeta; repeat split.
Qed.

(** ** Determinism *)

(** C9: the dictionaries [calculate_carbon_value] and [compare_scenarios]
    return depend only on their explicit arguments: two runs on the same
    arguments, whatever the logger's state, return equal results. *)
Theorem valuation_deterministic :
  forall np_sum cd a p r st1 st2 bc sc,
  fst (calculate_carbon_value np_sum cd a p r st1) =
  fst (calculate_carbon_value np_sum cd a p r st2) /\
  fst (compare_scenarios np_sum bc sc a p st1) =
  fst (compare_scenarios np_sum bc sc a p st2).
Proof.
  intros. unfold calculate_carbon_value, compare_scenarios.
  destruct cd; split; reflexivity.
Qed.

(** ** Loops that raise *)

Lemma for_each_ok : forall (A B : Type) (body : A -> B -> result A) (g : A -> B -> A)
    (P : B -> Prop) xs a,
  (forall a x, P x -> body a x = Ok (g a x)) -> (forall x, In x xs -> P x) ->
  for_each body xs a = Ok (fold_left g xs a).
Proof.
  intros A B body g P xs. induction xs as [|x xs IH]; intros a Hb Hp; simpl; [reflexivity|].
  rewrite (Hb a x) by (apply Hp; now left).
  apply IH; [exact Hb|]. intros y Hy. apply Hp. now right.
Qed.

Lemma np_int_for_fits : forall dt v, fits dt v = true -> np_int_for dt v = Ok v.
Proof. intros dt v H. unfold np_int_for. rewrite H. reflexivity. Qed.

(** ** Reclassification of a LULC raster *)

Section Reclassify.

Lemma lookup_last_fold : forall o l acc,
  fold_left (lookup_step o) l acc =
  match lookup_last l o with Some v => Some v | None => acc end.
Proof.
  intros o l. unfold lookup_last.
  change (fun acc '(k, v) => if k =? o then Some v else acc) with (lookup_step o).
  induction l as [|[k v] l IH]; intros acc; simpl; [reflexivity|].
  rewrite (IH (if k =? o then Some v else acc)), (IH (if k =? o then Some v else None)).
  destruct (fold_left (lookup_step o) l None); [reflexivity|].
  destruct (k =? o); reflexivity.
Qed.

Lemma lookup_last_cons : forall o k v l,
  lookup_last ((k, v) :: l) o =
  match lookup_last l o with
  | Some w => Some w
  | None => if k =? o then Some v else None
  end.
Proof.
  intros. unfold lookup_last at 1; simpl.
  change (fun acc '(k, v) => if k =? o then Some v else acc) with (lookup_step o).
  rewrite lookup_last_fold. reflexivity.
Qed.

Lemma lookup_last_absent : forall o l,
  ~ In o (map fst l) -> lookup_last l o = None.
Proof.
  intros o l. induction l as [|[k v] l IH]; intros Hn; [reflexivity|].
  rewrite lookup_last_cons. simpl in Hn.
  rewrite IH by tauto.
  destruct (Z.eqb_spec k o); [subst; tauto | reflexivity].
Qed.

Lemma lookup_last_In : forall o v l,
  NoDup (map fst l) -> (lookup_last l o = Some v <-> In (o, v) l).
Proof.
  intros o v l. induction l as [|[k w] l IH]; intros Hnd.
  - simpl. split; [discriminate | tauto].
  - simpl in Hnd. apply NoDup_cons_iff in Hnd as [Hk Hnd].
    rewrite lookup_last_cons. simpl.
    destruct (lookup_last l o) as [x|] eqn:E.
    + split.
      * intros Hx. right. apply IH; congruence.
      * intros [Heq|Hin].
        -- inversion Heq; subst. rewrite lookup_last_absent in E by exact Hk.
           discriminate.
        -- apply IH in Hin; congruence.
    + destruct (Z.eqb_spec k o).
      * subst. split.
        -- intros Hx; inversion Hx; subst; left; reflexivity.
        -- intros [Heq|Hin]; [inversion Heq; reflexivity|].
           apply IH in Hin; congruence.
      * split; [discriminate|].
        intros [Heq|Hin]; [inversion Heq; congruence|].
        apply IH in Hin; congruence.
Qed.

Lemma dict_set_keys : forall d k v x,
  In x (map fst (dict_set d k v)) <-> x = k \/ In x (map fst d).
Proof.
  induction d as [|[k' v'] d IH]; intros k v x; simpl; [intuition congruence|].
  destruct (Z.eqb_spec k' k); simpl.
  - subst. intuition congruence.
  - rewrite IH. intuition congruence.
Qed.

Lemma dict_set_nodup : forall d k v,
  NoDup (map fst d) -> NoDup (map fst (dict_set d k v)).
Proof.
  induction d as [|[k' v'] d IH]; intros k v Hnd; simpl.
  - constructor; [simpl; tauto | constructor].
  - simpl in Hnd. apply NoDup_cons_iff in Hnd as [Hk Hnd].
    destruct (Z.eqb_spec k' k); simpl.
    + subst. constructor; assumption.
    + constructor; [|apply IH; assumption].
      rewrite dict_set_keys. intros [H|H]; [congruence | tauto].
Qed.

Lemma lookup_last_dict_set : forall d k v o,
  NoDup (map fst d) ->
  lookup_last (dict_set d k v) o = if k =? o then Some v else lookup_last d o.
Proof.
  induction d as [|[k' v'] d IH]; intros k v o Hnd; simpl.
  - rewrite lookup_last_cons. reflexivity.
  - simpl in Hnd. apply NoDup_cons_iff in Hnd as [Hk Hnd].
    destruct (Z.eqb_spec k' k).
    + subst. rewrite !lookup_last_cons.
      destruct (Z.eqb_spec k o).
      * subst. rewrite lookup_last_absent by exact Hk. reflexivity.
      * destruct (lookup_last d o); reflexivity.
    + rewrite !lookup_last_cons, IH by exact Hnd.
      destruct (k =? o); reflexivity.
Qed.

Lemma lookup_last_app_one : forall l k v o,
  lookup_last (l ++ [(k, v)]) o = if k =? o then Some v else lookup_last l o.
Proof.
  intros. unfold lookup_last. rewrite fold_left_app. simpl. reflexivity.
Qed.

Lemma dict_of_rows_spec : forall rows o,
  NoDup (map fst (dict_of_rows rows)) /\
  lookup_last (dict_of_rows rows) o = lookup_last rows o.
Proof.
  intros rows o. unfold dict_of_rows.
  rewrite <- (rev_involutive rows).
  induction (rev rows) as [|[k v] r IH]; simpl; [split; [constructor | reflexivity]|].
  rewrite fold_left_app. simpl.
  destruct IH as [Hnd Hl]. split.
  - apply dict_set_nodup; exact Hnd.
  - rewrite lookup_last_dict_set by exact Hnd.
    rewrite lookup_last_app_one, Hl. reflexivity.
Qed.

Lemma reclass_step_map : forall lulc g kv,
  reclass_step lulc (map g lulc) kv =
  map (fun o => if o =? fst kv then snd kv else g o) lulc.
Proof.
  intros lulc g kv. unfold reclass_step.
  induction lulc as [|o lulc IH]; simpl; [reflexivity|].
  f_equal. exact IH.
Qed.

Lemma reclass_loop_map : forall d lulc g,
  fold_left (reclass_step lulc) d (map g lulc) = map (fun o => pix_fold d o (g o)) lulc.
Proof.
  induction d as [|kv d IH]; intros lulc g; simpl; [reflexivity|].
  rewrite reclass_step_map, IH. reflexivity.
Qed.

Lemma pix_fold_lookup : forall d o r,
  pix_fold d o r = match lookup_last d o with Some v => v | None => r end.
Proof.
  intros d o. unfold pix_fold.
  assert (G : forall acc r,
    fold_left (fun r kv => if o =? fst kv then snd kv else r) d
              (match acc with Some v => v | None => r end) =
    match fold_left (lookup_step o) d acc with Some v => v | None => r end).
  { induction d as [|[k v] d IH]; intros acc r; simpl; [reflexivity|].
    rewrite <- IH. rewrite Z.eqb_sym. destruct (k =? o); reflexivity. }
  intros r. rewrite (G None r), lookup_last_fold. destruct (lookup_last d o); reflexivity.
Qed.

Lemma dict_set_In : forall d k v kv,
  In kv (dict_set d k v) -> In kv d \/ kv = (k, v).
Proof.
  induction d as [|[k' v'] d IH]; intros k v kv H; simpl in H.
  - destruct H as [H|[]]. right. symmetry. exact H.
  - destruct (k' =? k); simpl in H.
    + destruct H as [H|H]; [right; symmetry; exact H|left; right; exact H].
    + destruct H as [H|H]; [left; left; exact H|].
      destruct (IH k v kv H) as [H'|H']; [left; right; exact H'|right; exact H'].
Qed.

Lemma dict_of_rows_In : forall rows kv, In kv (dict_of_rows rows) -> In kv rows.
Proof.
  intros rows kv. unfold dict_of_rows.
  assert (G : forall d, In kv (fold_left (fun d '(k, v) => dict_set d k v) rows d) ->
                        In kv d \/ In kv rows).
  { induction rows as [|[k v] rows IH]; intros d H; simpl in H; [now left|].
    destruct (IH _ H) as [H'|H']; [|right; now right].
    destruct (dict_set_In d k v kv H') as [H''|H'']; [now left|right; left; symmetry; exact H'']. }
  intros H. destruct (G [] H) as [[]|H']. exact H'.
Qed.

(** With every [new_value] of the table in the raster's dtype, the loop
    raises nothing and each pixel is looked up, from its original value, in
    the table. *)
Lemma prepare_lulc_ok : forall src rows,
  (forall o n, In (o, n) rows -> fits (dtype src) n = true) ->
  prepare_lulc_for_invest src (Some rows) =
  Ok (mk_raster (map (fun o => match lookup_last rows o with Some v => v | None => o end)
                     (data src)) (Some 0) (dtype src)).
Proof.
  intros src rows Hfit. unfold prepare_lulc_for_invest. cbv zeta iota beta.
  rewrite (for_each_ok _ _ (reclass_assign (dtype src) (data src)) (reclass_step (data src))
             (fun kv => fits (dtype src) (snd kv) = true)).
  - cbv iota beta. do 2 f_equal.
    rewrite <- (map_id (data src)) at 2. rewrite reclass_loop_map.
    apply map_ext. intros o. rewrite pix_fold_lookup.
    destruct (dict_of_rows_spec rows o) as [_ ->]. reflexivity.
  - intros rd [k v] H. unfold reclass_assign. cbn [fst snd] in *.
    rewrite np_int_for_fits by exact H. reflexivity.
  - intros [k v] Hin. apply dict_of_rows_In in Hin. exact (Hfit k v Hin).
Qed.

Lemma lookup_last_some_In : forall rows o v,
  lookup_last rows o = Some v -> In (o, v) rows.
Proof.
  induction rows as [|[k w] rows IH]; intros o v H; [discriminate|].
  rewrite lookup_last_cons in H.
  destruct (lookup_last rows o) as [w'|] eqn:E.
  - injection H as <-. right. apply IH. exact E.
  - destruct (Z.eqb_spec k o); [|discriminate]. injection H as <-. subst. now left.
Qed.

End Reclassify.

(** The rows of a concrete table are in range, row by row. *)
Ltac rows_fit :=
  let Hin := fresh "Hin" in
  intros ? ? Hin; simpl in Hin;
  repeat (destruct Hin as [Hin|Hin]; [injection Hin as <- <-; reflexivity|]);
  destruct Hin.

(** C3 counterexample: a table listing [original_value = 1] twice, once
    with [new_value = 2] and once with [3]; swapping the two rows changes the
    written raster, since [dict(zip(...))] keeps the last row for a key. *)
Lemma prepare_lulc_duplicate_key_counterexample :
  let src := mk_raster [1; 5] None uint8 in
  Permutation [(1, 2); (1, 3)] [(1, 3); (1, 2)] /\
  prepare_lulc_for_invest src (Some [(1, 2); (1, 3)]) = Ok (mk_raster [3; 5] (Some 0) uint8) /\
  prepare_lulc_for_invest src (Some [(1, 3); (1, 2)]) = Ok (mk_raster [2; 5] (Some 0) uint8).
Proof.
  cbv zeta. split; [apply perm_swap|]. split; vm_compute; reflexivity.
Qed.

(** C3 (amended): when every [new_value] of the table lies in the range of
    the raster's dtype, [prepare_lulc_for_invest] raises nothing and
    replaces every pixel whose original value is an [original_value] of the
    table by the [new_value] of the last row with that [original_value],
    and keeps every other pixel; each pixel is rewritten from its original
    value only, never chained through a second rule. Hence, when no
    [original_value] occurs twice, the result does not depend on the order
    of the table's rows. *)
Theorem prepare_lulc_for_invest_reclassify :
  forall src rows,
  (forall o n, In (o, n) rows -> fits (dtype src) n = true) ->
  prepare_lulc_for_invest src (Some rows) =
    Ok (mk_raster (map (fun o => match lookup_last rows o with Some v => v | None => o end)
                       (data src)) (Some 0) (dtype src)) /\
  (forall rows', Permutation rows rows' -> NoDup (map fst rows) ->
   prepare_lulc_for_invest src (Some rows') = prepare_lulc_for_invest src (Some rows)).
Proof.
  intros src rows Hfit. split; [apply prepare_lulc_ok; exact Hfit|].
  intros rows' Hp Hnd.
  assert (Hfit' : forall o n, In (o, n) rows' -> fits (dtype src) n = true)
    by (intros o n Hin; apply (Hfit o n); apply (Permutation_in _ (Permutation_sym Hp)); exact Hin).
  assert (Hnd' : NoDup (map fst rows'))
    by (eapply Permutation_NoDup; [apply Permutation_map; exact Hp | exact Hnd]).
  rewrite (prepare_lulc_ok src rows Hfit), (prepare_lulc_ok src rows' Hfit').
  do 2 f_equal. apply map_ext. intros o.
  assert (E : lookup_last rows' o = lookup_last rows o).
  { destruct (lookup_last rows o) as [v|] eqn:E1.
    - apply lookup_last_In; [exact Hnd'|].
      apply (Permutation_in _ Hp). apply lookup_last_In; assumption.
    - destruct (lookup_last rows' o) as [v'|] eqn:E2; [|reflexivity].
      apply lookup_last_In in E2; [|exact Hnd'].
      apply (Permutation_in _ (Permutation_sym Hp)) in E2.
      apply lookup_last_In in E2; [congruence | exact Hnd]. }
  rewrite E. reflexivity.
Qed.

Lemma prepare_lulc_for_invest_reclassify_witness :
  Permutation [(1, 2); (4, 3)] [(4, 3); (1, 2)] /\ NoDup (map fst [(1, 2); (4, 3)]) /\
  prepare_lulc_for_invest (mk_raster [1; 4; 5] None uint8) (Some [(1, 2); (4, 3)]) =
    Ok (mk_raster [2; 3; 5] (Some 0) uint8) /\
  prepare_lulc_for_invest (mk_raster [1; 4; 5] None uint8) (Some [(4, 3); (1, 2)]) =
  prepare_lulc_for_invest (mk_raster [1; 4; 5] None uint8) (Some [(1, 2); (4, 3)]).
Proof.
  assert (Hp : Permutation [(1, 2); (4, 3)] [(4, 3); (1, 2)]) by apply perm_swap.
  assert (Hn : NoDup (map fst [(1, 2); (4, 3)])) by (vm_compute; repeat constructor; simpl; lia).
  assert (Hf : forall o n, In (o, n) [(1, 2); (4, 3)] -> fits (dtype (mk_raster [1; 4; 5] None uint8)) n = true)
    by rows_fit.
  destruct (prepare_lulc_for_invest_reclassify (mk_raster [1; 4; 5] None uint8)
              [(1, 2); (4, 3)] Hf) as [H1 H2].
  split; [exact Hp|]. split; [exact Hn|]. split.
  - rewrite H1. vm_compute. reflexivity.
  - exact (H2 [(4, 3); (1, 2)] Hp Hn).
Defined.

(** ** Scenario rasters *)

(** C4: [create_scenario_lulc] uses the masked pixel values of the base
    raster as the change mask, so a pixel inside the change area whose base
    value is 0 is not rewritten: a [uint8] raster [[0; 7]] without nodata
    value and one change area covering its first pixel with new value 5
    gives [[0; 7]], where the spec asks for [[5; 7]]. *)
Theorem create_scenario_lulc_zero_pixel_kept :
  let src := mk_raster [0; 7] None uint8 in
  create_scenario_lulc src [[true; false]] [5] = Ok (mk_raster [0; 7] None uint8) /\
  data (scenario_spec src [[true; false]] [5]) = [5; 7] /\
  create_scenario_lulc src [[true; false]] [5] <> Ok (scenario_spec src [[true; false]] [5]).
Proof.
  cbv zeta. split; [vm_compute; reflexivity|]. split; [vm_compute; reflexivity|].
  vm_compute. discriminate.
Qed.

(** Helper: with a nonzero nodata value, pixels outside every change area
    are rewritten as well: a raster [[3; 7]] with nodata 255 and a change
    area covering only its first pixel gives [[5; 5]]. *)
Lemma create_scenario_lulc_nodata_fill :
  create_scenario_lulc (mk_raster [3; 7] (Some 255) uint8) [[true; false]] [5]
  = Ok (mk_raster [5; 5] (Some 255) uint8).
Proof. vm_compute. reflexivity. Qed.

(** ** Errors of the carbon module *)

(** C6 counterexample: both input files exist, yet with [output_dir = ""]
    (which does not exist) [prepare_carbon_inputs] raises
    [FileNotFoundError] from [os.makedirs('')], and nothing is logged as an
    error before it propagates. *)
Lemma prepare_carbon_inputs_empty_output_dir_counterexample :
  path_exists demo_fs "lulc.tif" = true /\
  path_exists demo_fs "carbon_pools.csv" = true /\
  fst (prepare_carbon_inputs demo_fs "lulc.tif" "carbon_pools.csv" "" []) =
    Err (FileNotFoundError "") /\
  has_level ERROR (snd (prepare_carbon_inputs demo_fs "lulc.tif" "carbon_pools.csv" "" [])) = false.
Proof. vm_compute. repeat split. Qed.

Lemma has_level_log : forall l l' m xs st,
  has_level l (log l' m xs st) = has_level l st || level_eqb l' l.
Proof.
  intros. unfold has_level, log. rewrite existsb_app. simpl.
  rewrite orb_false_r. reflexivity.
Qed.

(** C6 (amended): [prepare_carbon_inputs] raises [FileNotFoundError],
    without logging an error, when the LULC raster path does not exist, and
    otherwise when the carbon pools CSV path does not exist; when both exist,
    an error of [os.makedirs] creating a missing output directory propagates
    unlogged; an error reading the raster or the CSV, and the [ValueError] of
    a CSV lacking one of [lucode], [c_above], [c_below], [c_soil], [c_dead],
    are logged as errors and re-raised unchanged; with all columns present
    the model arguments are returned, no error is logged, and a warning is
    logged exactly when some LULC class other than 0 has no carbon data.
    [run_carbon_model] logs an error of the InVEST run and re-raises it
    unchanged. *)
Theorem carbon_module_errors :
  (forall fs lp cp od st,
   let r := prepare_carbon_inputs fs lp cp od st in
   let st0 := log INFO "Preparing Carbon model inputs..." [] st in
   (path_exists fs lp = false -> r = (Err (FileNotFoundError lp), st0)) /\
   (path_exists fs lp = true -> path_exists fs cp = false ->
      r = (Err (FileNotFoundError cp), st0)) /\
   (path_exists fs lp = true -> path_exists fs cp = true -> path_exists fs od = false ->
      forall e, os_makedirs fs od = Some e -> r = (Err e, st0)) /\
   (path_exists fs lp = true -> path_exists fs cp = true ->
    (if path_exists fs od then None else os_makedirs fs od) = None ->
    (read_raster fs lp = None ->
       fst r = Err (ReadError lp) /\ has_level ERROR (snd r) = true) /\
    (forall d, read_raster fs lp = Some d ->
     (read_csv fs cp = None ->
        fst r = Err (ReadError cp) /\ has_level ERROR (snd r) = true) /\
     (forall c, read_csv fs cp = Some c ->
      (missing_columns c <> [] ->
         fst r = Err (ValueError "Carbon pools CSV missing required columns") /\
         has_level ERROR (snd r) = true) /\
      (missing_columns c = [] ->
         fst r = Ok (mk_args lp cp od) /\
         has_level ERROR (snd r) = has_level ERROR st /\
         has_level WARNING (snd r) =
           has_level WARNING st ||
           negb (Nat.eqb (List.length (missing_classes (np_unique d) c)) 0)))))) /\
  (forall (R S : Type) (execute : invest_args -> result R)
          (summarize : string -> result S) args st e,
   execute args = Err e ->
   fst (run_carbon_model execute summarize args st) = Err e /\
   has_level ERROR (snd (run_carbon_model execute summarize args st)) = true).
Proof.
  split.
  - intros fs lp cp od st. cbv zeta. unfold prepare_carbon_inputs.
    split; [intros H1; rewrite H1; reflexivity|].
    split; [intros H1 H2; rewrite H1, H2; reflexivity|].
    split; [intros H1 H2 H3 e He; rewrite H1, H2, H3; simpl; rewrite He; reflexivity|].
    intros H1 H2 Hdir. rewrite H1, H2. simpl negb. cbv iota. rewrite Hdir.
    split; [intros Hr; rewrite Hr; simpl; split; [reflexivity|];
            rewrite has_level_log; apply orb_true_r|].
    intros d Hr. rewrite Hr.
    split; [intros Hc; rewrite Hc; simpl; split; [reflexivity|];
            rewrite has_level_log; apply orb_true_r|].
    intros c Hc. rewrite Hc. split.
    + intros Hm. destruct (missing_columns c) as [|col cols]; [congruence|].
      simpl. split; [reflexivity|]. rewrite has_level_log. apply orb_true_r.
    + intros Hm. rewrite Hm. simpl.
      destruct (Nat.eqb (List.length (missing_classes (np_unique d) c)) 0); simpl;
        rewrite ?has_level_log; simpl; rewrite ?has_level_log; simpl;
        rewrite ?orb_false_r, ?orb_true_r; repeat split.
  - intros R S execute summarize args st e He.
    unfold run_carbon_model. rewrite He. simpl. split; [reflexivity|].
    rewrite has_level_log. apply orb_true_r.
Qed.

Lemma carbon_module_errors_witness :
  fst (prepare_carbon_inputs demo_fs "lulc.tif" "carbon_pools.csv" "out" []) =
    Ok (mk_args "lulc.tif" "carbon_pools.csv" "out") /\
  has_level ERROR (snd (prepare_carbon_inputs demo_fs "lulc.tif" "carbon_pools.csv" "out" [])) = false /\
  has_level WARNING (snd (prepare_carbon_inputs demo_fs "lulc.tif" "carbon_pools.csv" "out" [])) = true.
Proof.
  pose proof (proj1 carbon_module_errors demo_fs "lulc.tif"%string "carbon_pools.csv"%string "out"%string [])
    as H0.
  cbv zeta in H0. destruct H0 as (_ & _ & _ & H1).
  destruct (H1 eq_refl eq_refl eq_refl) as [_ H2].
  destruct (H2 [0; 1; 2] eq_refl) as [_ H3].
  destruct (H3 (mk_csv required_cols [1]) eq_refl) as [_ H4].
  destruct (H4 eq_refl) as (A & B & C).
  split; [exact A|]. split; [rewrite B; reflexivity | rewrite C; reflexivity].
Defined.

(** ** Summaries of carbon rasters *)

(** C8 counterexample: three positive pixels at a resolution of 0.3 by 0.3;
    [summarize_carbon_results] reports [area_ha = 3 * (0.3 * 0.3) / 10000]
    (the pixel area is formed first), which differs from
    [3 * 0.3 * 0.3 / 10000] in its last bit. *)
Lemma summarize_area_order_counterexample :
  match fst (summarize_carbon_results (np_mean np_sum_small) np_median_small np_sum_small
               np_min_small np_max_small
               (Some (mk_craster [of_int 100; zero; of_int 100; of_int 100] f0_3 f0_3 None))
               []) with
  | Ok s => pixel_count s = 3 /\
            area_ha s <> Some (of_int 3 * f0_3 * f0_3 / of_int 10000)%py
  | Err _ => False
  end.
Proof. vm_compute. split; [reflexivity | discriminate]. Qed.

Lemma positive_pixels_skip : forall xs ys v,
  gtb v zero = false -> positive_pixels (xs ++ v :: ys) = positive_pixels (xs ++ ys).
Proof.
  intros xs ys v Hv. unfold positive_pixels.
  rewrite !filter_app. simpl. rewrite Hv. reflexivity.
Qed.

(** C8 (amended): both functions compute mean, median, min, max, total and
    pixel count over exactly the strictly positive values ([carbon_data > 0];
    for [extract_carbon_for_region], of the masked window, where pixels outside
    the region carry the nodata fill value, 0 when unset), so a value [<= 0]
    or NaN never contributes; [area_ha] is
    [pixel_count * (res_x * res_y) / 10000], the pixel area formed first;
    [extract_carbon_for_region] always reports it, [summarize_carbon_results]
    reports it for square pixels. *)
Theorem carbon_summaries_positive_pixels :
  forall r_mean r_median r_sum r_min r_max,
  (forall src st mn mx,
   let valid := positive_pixels (cvalues src) in
   let n := Z.of_nat (List.length valid) in
   eqb (res_x src) (res_y src) = true ->
   r_min valid = Some mn -> r_max valid = Some mx ->
   fst (summarize_carbon_results r_mean r_median r_sum r_min r_max (Some src) st) =
   Ok {| mean_carbon := r_mean valid; median_carbon := r_median valid;
         min_carbon := mn; max_carbon := mx; total_carbon := r_sum valid;
         pixel_count := n; pixel_size := (res_x src * res_y src)%py;
         area_ha := Some (of_int n * (res_x src * res_y src) / of_int 10000)%py |}) /\
  (forall src window st mn mx,
   let valid := positive_pixels (rio_mask_crop src window) in
   let n := Z.of_nat (List.length valid) in
   r_min valid = Some mn -> r_max valid = Some mx ->
   fst (extract_carbon_for_region r_mean r_median r_sum r_min r_max src window st) =
   Ok (valid,
       {| mean_carbon := r_mean valid; median_carbon := r_median valid;
          min_carbon := mn; max_carbon := mx; total_carbon := r_sum valid;
          pixel_count := n; pixel_size := (res_x src * res_y src)%py;
          area_ha := Some (of_int n * (res_x src * res_y src) / of_int 10000)%py |})) /\
  (forall xs ys v, gtb v zero = false ->
   positive_pixels (xs ++ v :: ys) = positive_pixels (xs ++ ys)).
Proof.
  intros r_mean r_median r_sum r_min r_max. split; [|split].
  - intros src st mn mx. cbv zeta. intros Hsq Hmin Hmax.
    unfold summarize_carbon_results, summary_of. rewrite Hmin, Hmax, Hsq.
    reflexivity.
  - intros src window st mn mx. cbv zeta. intros Hmin Hmax.
    unfold extract_carbon_for_region, summary_of. rewrite Hmin, Hmax.
    reflexivity.
  - exact positive_pixels_skip.
Qed.

Lemma carbon_summaries_positive_pixels_witness :
  let src := mk_craster [of_int 120; zero; of_int (-1); of_int 80] (of_int 30) (of_int 30) None in
  let valid := positive_pixels (cvalues src) in
  valid = [of_int 120; of_int 80] /\
  fst (summarize_carbon_results (np_mean np_sum_small) np_median_small np_sum_small
         np_min_small np_max_small (Some src) []) =
  Ok {| mean_carbon := np_mean np_sum_small valid;
        median_carbon := np_median_small valid;
        min_carbon := of_int 80; max_carbon := of_int 120;
        total_carbon := np_sum_small valid;
        pixel_count := 2; pixel_size := (of_int 30 * of_int 30)%py;
        area_ha := Some (of_int 2 * (of_int 30 * of_int 30) / of_int 10000)%py |}.
Proof.
  cbv zeta. split; [vm_compute; reflexivity|].
  apply (proj1 (carbon_summaries_positive_pixels (np_mean np_sum_small) np_median_small
                  np_sum_small np_min_small np_max_small)
           (mk_craster [of_int 120; zero; of_int (-1); of_int 80] (of_int 30) (of_int 30) None)
           [] (of_int 80) (of_int 120)); vm_compute; reflexivity.
Defined.

(** * Further properties of the code *)

(** ** Summaries: edge behaviour *)

Lemma summary_of_error : forall r_mean r_median r_sum r_min r_max valid rx ry e,
  summary_of r_mean r_median r_sum r_min r_max valid rx ry = Err e ->
  exists m, e = ValueError m.
Proof.
  intros. unfold summary_of in H.
  destruct (r_min valid); [destruct (r_max valid)|]; inversion H; eauto.
Qed.

(** [summarize_carbon_results] never returns a summary for non-square
    pixels: the closing log line formats the missing [area_ha] ('N/A') with
    [:.2f] and raises [ValueError]. *)
Theorem summarize_non_square_raises :
  forall r_mean r_median r_sum r_min r_max src st,
  eqb (res_x src) (res_y src) = false ->
  exists m, fst (summarize_carbon_results r_mean r_median r_sum r_min r_max (Some src) st)
            = Err (ValueError m).
Proof.
  intros r_mean r_median r_sum r_min r_max src st Hsq.
  unfold summarize_carbon_results. rewrite Hsq.
  destruct (summary_of _ _ _ _ _ _ _ _) as [s|e] eqn:E.
  - unfold summary_of in E.
    destruct (r_min _); [destruct (r_max _)|]; inversion E; subst; simpl; eauto.
  - apply summary_of_error in E as [m ->]. simpl. eauto.
Qed.

Lemma summarize_non_square_raises_witness :
  eqb (of_int 30) (of_int 20) = false /\
  exists m, fst (summarize_carbon_results (np_mean np_sum_small) np_median_small np_sum_small
                   np_min_small np_max_small
                   (Some (mk_craster [of_int 100] (of_int 30) (of_int 20) None)) [])
            = Err (ValueError m).
Proof.
  split; [vm_compute; reflexivity|].
  apply (summarize_non_square_raises (np_mean np_sum_small) np_median_small np_sum_small
           np_min_small np_max_small (mk_craster [of_int 100] (of_int 30) (of_int 20) None) []).
  vm_compute. reflexivity.
Defined.

(** With no strictly positive pixel, both summaries raise [ValueError]
    ([np.min] of an empty array); [extract_carbon_for_region] logs it as an
    error first. *)
Theorem summaries_no_positive_pixel_raise :
  forall r_mean r_median r_sum r_min r_max,
  r_min [] = None ->
  (forall src st, positive_pixels (cvalues src) = [] ->
   exists m, fst (summarize_carbon_results r_mean r_median r_sum r_min r_max (Some src) st)
             = Err (ValueError m)) /\
  (forall src window st, positive_pixels (rio_mask_crop src window) = [] ->
   exists m,
     fst (extract_carbon_for_region r_mean r_median r_sum r_min r_max src window st)
       = Err (ValueError m) /\
     has_level ERROR
       (snd (extract_carbon_for_region r_mean r_median r_sum r_min r_max src window st))
       = true).
Proof.
  intros r_mean r_median r_sum r_min r_max Hmin. split.
  - intros src st He. unfold summarize_carbon_results, summary_of.
    rewrite He, Hmin. eexists. reflexivity.
  - intros src window st He. unfold extract_carbon_for_region, summary_of.
    rewrite He, Hmin. eexists. split; [reflexivity|].
    cbn [snd]. rewrite has_level_log. apply orb_true_r.
Qed.

Lemma summaries_no_positive_pixel_raise_witness :
  np_min_small [] = None /\
  exists m, fst (summarize_carbon_results (np_mean np_sum_small) np_median_small np_sum_small
                   np_min_small np_max_small
                   (Some (mk_craster [zero; of_int (-3)] (of_int 30) (of_int 30) None)) [])
            = Err (ValueError m).
Proof.
  split; [reflexivity|].
  apply (proj1 (summaries_no_positive_pixel_raise (np_mean np_sum_small) np_median_small
                  np_sum_small np_min_small np_max_small eq_refl)).
  vm_compute. reflexivity.
Defined.

(** The array [extract_carbon_for_region] returns holds only strictly
    positive values, [pixel_count] is its length, and [area_ha] is always
    present. *)
Theorem extract_carbon_for_region_valid :
  forall r_mean r_median r_sum r_min r_max src window st valid s,
  fst (extract_carbon_for_region r_mean r_median r_sum r_min r_max src window st)
    = Ok (valid, s) ->
  (forall v, In v valid -> gtb v zero = true) /\
  pixel_count s = Z.of_nat (List.length valid) /\
  area_ha s <> None.
Proof.
  intros r_mean r_median r_sum r_min r_max src window st valid s H.
  unfold extract_carbon_for_region in H.
  destruct (summary_of _ _ _ _ _ _ _ _) as [s0|e] eqn:E; [|discriminate].
  simpl in H. inversion H; subst valid s; clear H.
  split; [|split].
  - intros v Hv. unfold positive_pixels in Hv. apply filter_In in Hv. tauto.
  - unfold summary_of in E.
    destruct (r_min _); [destruct (r_max _)|]; inversion E; reflexivity.
  - simpl. discriminate.
Qed.

Lemma extract_carbon_for_region_valid_witness :
  (forall v, In v [of_int 50; of_int 90] -> gtb v zero = true) /\
  pixel_count (with_area (mk_summary_demo [of_int 50; of_int 90]) zero) = 2.
Proof.
  destruct (extract_carbon_for_region_valid (np_mean np_sum_small) np_median_small
              np_sum_small np_min_small np_max_small
              (mk_craster [] (of_int 30) (of_int 30) None)
              [(of_int 50, true); (of_int 70, false); (zero, true); (of_int 90, true)] []
              [of_int 50; of_int 90]
              (with_area (mk_summary_demo [of_int 50; of_int 90])
                 (area_of 2 (of_int 30) (of_int 30))))
    as (H1 & H2 & _).
  - vm_compute. reflexivity.
  - split; [exact H1|exact H2].
Defined.

(** ** [np.unique] and the LULC attribute table *)

Lemma insert_sorted_In : forall x y l,
  In y (insert_sorted x l) <-> y = x \/ In y l.
Proof.
  intros x y l. induction l as [|a l IH]; simpl.
  - intuition.
  - destruct (Z.ltb_spec x a); simpl; [intuition|].
    destruct (Z.eqb_spec x a); simpl.
    + subst. intuition.
    + rewrite IH. intuition.
Qed.

Lemma insert_sorted_sorted : forall x l,
  StronglySorted Z.lt l -> StronglySorted Z.lt (insert_sorted x l).
Proof.
  intros x l. induction l as [|a l IH]; intros Hs; simpl.
  - repeat constructor.
  - inversion Hs as [|? ? Hl Ha]; subst.
    destruct (Z.ltb_spec x a).
    + constructor; [exact Hs|]. constructor; [exact H|].
      rewrite Forall_forall in *. intros y Hy. specialize (Ha y Hy). lia.
    + destruct (Z.eqb_spec x a); [exact Hs|].
      constructor; [apply IH, Hl|]. rewrite Forall_forall in *.
      intros y Hy. apply insert_sorted_In in Hy as [->|Hy]; [lia|auto].
Qed.

Lemma np_unique_In : forall y l, In y (np_unique l) <-> In y l.
Proof.
  intros y l. induction l as [|a l IH]; simpl; [tauto|].
  unfold np_unique in *. simpl. rewrite insert_sorted_In, IH. intuition.
Qed.

Lemma np_unique_sorted : forall l, StronglySorted Z.lt (np_unique l).
Proof.
  induction l as [|a l IH]; simpl; [constructor|].
  apply insert_sorted_sorted, IH.
Qed.

Lemma filter_StronglySorted : forall (A : Type) (R : A -> A -> Prop) (f : A -> bool) l,
  StronglySorted R l -> StronglySorted R (filter f l).
Proof.
  intros A R f l. induction l as [|a l IH]; intros Hs; simpl; [constructor|].
  inversion Hs as [|? ? Hl Ha]; subst.
  destruct (f a); [|auto]. constructor; [auto|].
  rewrite Forall_forall in *. intros y Hy. apply filter_In in Hy. apply Ha; tauto.
Qed.

Lemma map_fst_combine_map : forall (A B : Type) (f : A -> B) l,
  map fst (combine l (map f l)) = l.
Proof. intros A B f l. induction l; simpl; congruence. Qed.

Lemma In_combine_map : forall (A B : Type) (f : A -> B) l a b,
  In (a, b) (combine l (map f l)) -> In a l /\ b = f a.
Proof.
  intros A B f l. induction l as [|x l IH]; simpl; [tauto|].
  intros a b [H|H]; [inversion H; auto|]. apply IH in H. tauto.
Qed.

(** The values of the attribute table are the distinct strictly positive
    values of the raster, in increasing order. *)
Theorem create_lulc_attribute_table_values :
  forall fs lulc_data output_csv class_names st rows st',
  create_lulc_attribute_table fs lulc_data output_csv class_names st = (Done rows, st') ->
  StronglySorted Z.lt (map fst rows) /\
  (forall v, In v (map fst rows) <-> In v lulc_data /\ 0 < v).
Proof.
  intros fs lulc_data output_csv class_names st rows st' H.
  unfold create_lulc_attribute_table in H.
  destruct (os_makedirs_exist_ok _ _); [discriminate|].
  inversion H; subst rows; clear H.
  match goal with |- context [combine ?u ?n] =>
    assert (E : map fst (combine u n) = u) end.
  { destruct class_names as [[|? ?]|]; apply map_fst_combine_map. }
  rewrite E. split.
  - apply filter_StronglySorted, np_unique_sorted.
  - intros v. rewrite filter_In, np_unique_In, Z.ltb_lt. tauto.
Qed.

Lemma create_lulc_attribute_table_values_witness :
  StronglySorted Z.lt (map fst [(3, "Class 3"%string); (7, "Class 7"%string)]) /\
  (forall v, In v (map fst [(3, "Class 3"%string); (7, "Class 7"%string)])
             <-> In v [7; 0; 3; 7; -2] /\ 0 < v).
Proof.
  apply (create_lulc_attribute_table_values demo_fs [7; 0; 3; 7; -2]
           "out/lulc_classes.csv" None []
           [(3, "Class 3"%string); (7, "Class 7"%string)]
           (snd (create_lulc_attribute_table demo_fs [7; 0; 3; 7; -2]
                   "out/lulc_classes.csv" None []))).
  vm_compute. reflexivity.
Defined.

(** The class names: with a non-empty [class_names] dict, the dict's name
    or ['Unknown']; with no dict or an empty one, ["Class <value>"]. *)
Theorem create_lulc_attribute_table_names :
  forall fs lulc_data output_csv class_names st rows st',
  create_lulc_attribute_table fs lulc_data output_csv class_names st = (Done rows, st') ->
  forall v n, In (v, n) rows ->
  (forall d, class_names = Some d -> d <> [] ->
     assoc d v = Some n \/ (assoc d v = None /\ n = "Unknown"%string)) /\
  (class_names = None \/ class_names = Some [] -> n = ("Class " ++ py_str_int v)%string).
Proof.
  intros fs lulc_data output_csv class_names st rows st' H v n Hin.
  unfold create_lulc_attribute_table in H.
  destruct (os_makedirs_exist_ok _ _); [discriminate|].
  inversion H; subst rows; clear H.
  destruct class_names as [[|p d]|].
  - apply In_combine_map in Hin as [_ ->]. split; [|reflexivity].
    intros d' Hd Hne. inversion Hd; subst; congruence.
  - apply In_combine_map in Hin as [_ ->]. split.
    + intros d' Hd _. injection Hd as <-.
      destruct (assoc (p :: d) v); intuition.
    + intros [Hc|Hc]; discriminate.
  - apply In_combine_map in Hin as [_ ->]. split; [discriminate|reflexivity].
Qed.

Lemma create_lulc_attribute_table_names_witness :
  (forall d, Some [(3, "Forest"%string)] = Some d -> d <> [] ->
     assoc d 7 = Some "Unknown"%string \/
     (assoc d 7 = None /\ "Unknown"%string = "Unknown"%string)) /\
  (Some [(3, "Forest"%string)] = None \/ Some [(3, "Forest"%string)] = Some [] ->
   "Unknown"%string = ("Class " ++ py_str_int 7)%string).
Proof.
  apply (create_lulc_attribute_table_names demo_fs [7; 0; 3]
           "out/lulc_classes.csv" (Some [(3, "Forest"%string)]) []
           [(3, "Forest"%string); (7, "Unknown"%string)]
           (snd (create_lulc_attribute_table demo_fs [7; 0; 3]
                   "out/lulc_classes.csv" (Some [(3, "Forest"%string)]) []))).
  - vm_compute. reflexivity.
  - simpl. auto.
Defined.

Lemma drop_while_all : forall (A : Type) (f : A -> bool) l,
  (forall x, In x l -> f x = true) -> drop_while f l = [].
Proof.
  intros A f l. induction l as [|a l IH]; intros H; simpl; [reflexivity|].
  rewrite (H a (or_introl eq_refl)). apply IH. intros x Hx. apply H. now right.
Qed.

(** A path without ['/'] has the empty directory name. *)
Lemma os_path_dirname_no_slash : forall p,
  forallb (fun c => negb (is_slash c)) (list_ascii_of_string p) = true ->
  os_path_dirname p = ""%string.
Proof.
  intros p H. unfold os_path_dirname.
  rewrite drop_while_all; [reflexivity|].
  intros x Hx. apply in_rev in Hx. rewrite forallb_forall in H. auto.
Qed.

(** Both table writers raise [FileNotFoundError] for an output path without
    a directory part ([os.makedirs('')]), and log it as an error. *)
Theorem tables_bare_output_name_raise :
  forall output_csv,
  forallb (fun c => negb (is_slash c)) (list_ascii_of_string output_csv) = true ->
  (forall fs lulc_data class_names st,
     fst (create_lulc_attribute_table fs lulc_data output_csv class_names st)
       = Raised (Base (FileNotFoundError "")) /\
     has_level ERROR (snd (create_lulc_attribute_table fs lulc_data output_csv class_names st))
       = true) /\
  (forall fs lulc_df carbon_values st,
     fst (create_carbon_pool_table fs lulc_df output_csv carbon_values st)
       = Raised (Base (FileNotFoundError "")) /\
     has_level ERROR (snd (create_carbon_pool_table fs lulc_df output_csv carbon_values st))
       = true).
Proof.
  intros output_csv H.
  assert (Hd : forall fs, os_makedirs_exist_ok fs (os_path_dirname output_csv)
                          = Some (FileNotFoundError "")).
  { intros fs. rewrite os_path_dirname_no_slash by exact H. reflexivity. }
  split; intros; [unfold create_lulc_attribute_table|unfold create_carbon_pool_table];
    rewrite Hd; cbn [fst snd]; split; try reflexivity;
    rewrite has_level_log; apply orb_true_r.
Qed.

Lemma tables_bare_output_name_raise_witness :
  fst (create_carbon_pool_table demo_fs [(1, "Forest"%string)] "carbon_pools.csv" None [])
    = Raised (Base (FileNotFoundError "")).
Proof.
  apply (proj2 (tables_bare_output_name_raise "carbon_pools.csv" eq_refl)).
Defined.

(** ** Class names and default carbon pools *)

Lemma lower_char_idem : forall c, lower_char (lower_char c) = lower_char c.
Proof. intros c. destruct c as [[] [] [] [] [] [] [] []]; reflexivity. Qed.

Lemma str_lower_idem : forall s, str_lower (str_lower s) = str_lower s.
Proof. induction s; simpl; [reflexivity|]. rewrite lower_char_idem, IHs. reflexivity. Qed.

(** The default pools depend on the class name up to case only. *)
Theorem default_pools_case_insensitive : forall s,
  default_pools (str_lower s) = default_pools s.
Proof. intros s. unfold default_pools. rewrite str_lower_idem. reflexivity. Qed.

Lemma prefix_chars : forall kw s c,
  prefix kw s = true -> In c (list_ascii_of_string kw) -> In c (list_ascii_of_string s).
Proof.
  induction kw as [|a kw IH]; intros s c H Hc; [destruct Hc|].
  destruct s as [|b s]; simpl in H; [discriminate|].
  destruct (ascii_dec a b) as [<-|]; [|discriminate].
  destruct Hc as [<-|Hc]; [now left|]. right. eapply IH; eauto.
Qed.

Lemma str_contains_chars : forall kw s c,
  str_contains kw s = true -> In c (list_ascii_of_string kw) -> In c (list_ascii_of_string s).
Proof.
  intros kw s c. induction s as [|b s IH]; intros H Hc.
  - change (prefix kw "" || false = true) in H.
    rewrite orb_false_r in H. eapply prefix_chars; eauto.
  - change (prefix kw (String b s) || str_contains kw s = true) in H.
    apply orb_true_iff in H as [H|H].
    + eapply prefix_chars; eauto.
    + right. auto.
Qed.

(** [kw in s] is false when [kw] has a character [s] cannot hold. *)
Lemma str_contains_absent : forall (ok : Ascii.ascii -> bool) s kw,
  (forall c, In c (list_ascii_of_string s) -> ok c = true) ->
  existsb (fun c => negb (ok c)) (list_ascii_of_string kw) = true ->
  str_contains kw s = false.
Proof.
  intros ok s kw Hs Hkw. destruct (str_contains kw s) eqn:E; [|reflexivity].
  apply existsb_exists in Hkw as [c [Hc Hn]].
  rewrite (Hs c (str_contains_chars kw s c E Hc)) in Hn. discriminate.
Qed.

Lemma uint_to_string_chars : forall u c,
  In c (list_ascii_of_string (uint_to_string u)) -> class_label_char c = true.
Proof.
  induction u; simpl; intros c H; try contradiction;
    destruct H as [<-|H]; auto.
Qed.

Lemma class_label_chars : forall v c,
  In c (list_ascii_of_string ("Class " ++ py_str_int v)) -> class_label_char c = true.
Proof.
  intros v c H. simpl in H.
  do 6 (destruct H as [<-|H]; [reflexivity|]).
  unfold py_str_int in H. destruct (Z.to_int v) as [u|u]; simpl in H.
  - eapply uint_to_string_chars; eauto.
  - destruct H as [<-|H]; [reflexivity|]. eapply uint_to_string_chars; eauto.
Qed.

Lemma lower_class_label_char : forall c,
  class_label_char c = true -> lowered_label_char (lower_char c) = true.
Proof. intros c. destruct c as [[] [] [] [] [] [] [] []]; vm_compute; congruence. Qed.

Lemma str_lower_chars : forall s c,
  In c (list_ascii_of_string (str_lower s)) ->
  exists c', In c' (list_ascii_of_string s) /\ c = lower_char c'.
Proof.
  induction s as [|a s IH]; simpl; intros c H; [contradiction|].
  destruct H as [<-|H]; [eauto|]. apply IH in H as [c' [Hc ->]]. eauto.
Qed.

Lemma class_label_lower_chars : forall v c,
  In c (list_ascii_of_string (str_lower ("Class " ++ py_str_int v))) ->
  lowered_label_char c = true.
Proof.
  intros v c H. apply str_lower_chars in H as [c' [Hc ->]].
  apply lower_class_label_char. eapply class_label_chars; eauto.
Qed.

Lemma class_label_no_keyword : forall v kw,
  existsb (fun c => negb (lowered_label_char c)) (list_ascii_of_string kw) = true ->
  str_contains kw (str_lower ("Class " ++ py_str_int v)) = false.
Proof.
  intros v kw. apply str_contains_absent. apply class_label_lower_chars.
Qed.

(** No default class name ["Class <value>"] holds a keyword of the
    default carbon pools, nor ['forest']. *)
Lemma default_pools_class_label : forall v,
  default_pools ("Class " ++ py_str_int v) = [0; 0; 0; 0].
Proof.
  intros v. unfold default_pools.
  rewrite !(class_label_no_keyword v "forest"), !(class_label_no_keyword v "shrub"),
    !(class_label_no_keyword v "grass"), !(class_label_no_keyword v "savanna"),
    !(class_label_no_keyword v "crop"), !(class_label_no_keyword v "urban"),
    !(class_label_no_keyword v "built"), !(class_label_no_keyword v "mine")
    by reflexivity.
  reflexivity.
Qed.

Lemma filter_none : forall (A : Type) (f : A -> bool) l,
  (forall x, In x l -> f x = false) -> filter f l = [].
Proof.
  intros A f l H. induction l as [|a l IH]; simpl; [reflexivity|].
  rewrite (H a (or_introl eq_refl)). apply IH. intros x Hx. apply H. now right.
Qed.

(** The data preparation pipeline: the attribute table it writes (no class
    names) feeds the default carbon pool table, which then gives every
    class zero carbon in all four pools, and the restoration scenario uses
    the placeholder class 1 since no class name contains 'forest'. *)
Theorem prepare_all_data_placeholder_tables :
  forall fs lulc_data lulc_classes_csv st rows st1 fs' carbon_pools_csv st' prows st2,
  create_lulc_attribute_table fs lulc_data lulc_classes_csv None st = (Done rows, st1) ->
  create_carbon_pool_table fs' rows carbon_pools_csv None st' = (Done prows, st2) ->
  map lucode prows = map fst rows /\
  (forall r, In r prows -> pools r = combine pool_names [0; 0; 0; 0]) /\
  forest_value_of (Some rows) = 1.
Proof.
  intros fs lulc_data lulc_classes_csv st rows st1 fs' carbon_pools_csv st' prows st2 H1 H2.
  unfold create_lulc_attribute_table in H1.
  destruct (os_makedirs_exist_ok _ _); [discriminate|].
  injection H1 as <- _.
  unfold create_carbon_pool_table in H2.
  destruct (os_makedirs_exist_ok _ _); [discriminate|].
  injection H2 as <- _.
  match goal with |- context [combine ?u (map ?f ?u)] =>
    assert (Hn : forall v n, In (v, n) (combine u (map f u)) ->
                             n = ("Class " ++ py_str_int v)%string)
      by (intros v n Hin; apply In_combine_map in Hin; tauto) end.
  split; [|split].
  - rewrite !map_map. apply map_ext. intros [v n]. reflexivity.
  - intros r Hr. apply in_map_iff in Hr as [r0 [<- Hr0]].
    apply in_map_iff in Hr0 as [[v n] [<- Hvn]]. simpl.
    rewrite (Hn v n Hvn), default_pools_class_label. reflexivity.
  - unfold forest_value_of. rewrite filter_none; [reflexivity|].
    intros [v n] Hvn. rewrite (Hn v n Hvn).
    apply class_label_no_keyword. reflexivity.
Qed.

Lemma prepare_all_data_placeholder_tables_witness :
  map lucode [mk_pool_row 3 "Class 3" (combine pool_names [0; 0; 0; 0]);
              mk_pool_row 7 "Class 7" (combine pool_names [0; 0; 0; 0])]
    = map fst [(3, "Class 3"%string); (7, "Class 7"%string)] /\
  forest_value_of (Some [(3, "Class 3"%string); (7, "Class 7"%string)]) = 1.
Proof.
  destruct (prepare_all_data_placeholder_tables demo_fs [7; 0; 3; 7]
              "processed/lulc/lulc_classes.csv" []
              [(3, "Class 3"%string); (7, "Class 7"%string)]
              (snd (create_lulc_attribute_table demo_fs [7; 0; 3; 7]
                      "processed/lulc/lulc_classes.csv" None []))
              demo_fs "invest_inputs/carbon_pools.csv" []
              [mk_pool_row 3 "Class 3" (combine pool_names [0; 0; 0; 0]);
               mk_pool_row 7 "Class 7" (combine pool_names [0; 0; 0; 0])]
              (snd (create_carbon_pool_table demo_fs
                      [(3, "Class 3"%string); (7, "Class 7"%string)]
                      "invest_inputs/carbon_pools.csv" None [])))
    as (H1 & _ & H3).
  - vm_compute. reflexivity.
  - vm_compute. reflexivity.
  - split; [exact H1|exact H3].
Defined.

(** ** The carbon pool table from given carbon values *)



Section PoolFold.

Variable cv : list (Z * list (string * Z)).







End PoolFold.



(** ** Extracting InVEST results *)

Section ExtractProps.

Variables (r_mean r_sum r_std : list float -> float)
          (r_min r_max : list float -> option float)
          (read_values : string -> option (list float)).

Lemma extract_invest_results_raised : forall fs ws out m st e,
  extract_body r_mean r_sum r_std r_min r_max read_values fs ws out m = Raised e ->
  fst (extract_invest_results r_mean r_sum r_std r_min r_max read_values fs ws out m st)
    = Raised e /\
  has_level ERROR
    (snd (extract_invest_results r_mean r_sum r_std r_min r_max read_values fs ws out m st))
    = true.
Proof.
  intros fs ws out m st e H. unfold extract_invest_results. rewrite H.
  cbn [fst snd]. split; [reflexivity|]. rewrite has_level_log. apply orb_true_r.
Qed.

End ExtractProps.

(** A model name other than 'carbon', 'habitat_quality' and 'sdr' extracts
    nothing: the results dict is empty. *)
Theorem extract_invest_results_unknown_model :
  forall r_mean r_sum r_std r_min r_max read_values fs ws out m st,
  model_outputs m = None ->
  os_makedirs_exist_ok fs out = None ->
  fst (extract_invest_results r_mean r_sum r_std r_min r_max read_values fs ws out m st)
    = Done [].
Proof.
  intros r_mean r_sum r_std r_min r_max read_values fs ws out m st Hm Hd.
  unfold extract_invest_results, extract_body. rewrite Hd, Hm. reflexivity.
Qed.

Lemma extract_invest_results_unknown_model_witness :
  model_outputs "water_yield" = None /\
  fst (extract_invest_results (np_mean np_sum_small) np_sum_small (np_mean np_sum_small)
         np_min_small np_max_small (fun _ => None) demo_fs "invest_ws" "results"
         "water_yield" []) = Done [].
Proof.
  split; [reflexivity|].
  apply extract_invest_results_unknown_model; reflexivity.
Defined.

(** When the secondary output exists but the primary does not, the copy of
    the secondary reads [shutil], which only the primary's [import shutil]
    binds: [UnboundLocalError], logged as an error. This holds for all
    three models. *)
Theorem extract_invest_results_secondary_without_primary :
  forall r_mean r_sum r_std r_min r_max read_values fs ws out m prim sec st,
  model_outputs m = Some (prim, sec) ->
  os_makedirs_exist_ok fs out = None ->
  path_exists fs (os_path_join ws (src_name prim)) = false ->
  path_exists fs (os_path_join ws (src_name sec)) = true ->
  fst (extract_invest_results r_mean r_sum r_std r_min r_max read_values fs ws out m st)
    = Raised (UnboundLocalError "shutil") /\
  has_level ERROR
    (snd (extract_invest_results r_mean r_sum r_std r_min r_max read_values fs ws out m st))
    = true.
Proof.
  intros r_mean r_sum r_std r_min r_max read_values fs ws out m prim sec st Hm Hd Hp Hs.
  apply extract_invest_results_raised.
  unfold extract_body. rewrite Hd, Hm. cbv zeta. rewrite Hp. cbv iota beta.
  rewrite Hs. reflexivity.
Qed.

(** A workspace with [degradation.tif] and no [quality.tif]. *)
Lemma extract_invest_results_secondary_without_primary_witness :
  fst (extract_invest_results (np_mean np_sum_small) np_sum_small (np_mean np_sum_small)
         np_min_small np_max_small (fun _ => None)
         (files_fs ["ws/degradation.tif"%string] [])
         "ws" "results" "habitat_quality" [])
    = Raised (UnboundLocalError "shutil").
Proof.
  apply (extract_invest_results_secondary_without_primary
           (np_mean np_sum_small) np_sum_small (np_mean np_sum_small)
           np_min_small np_max_small (fun _ => None)
           (files_fs ["ws/degradation.tif"%string] [])
           "ws" "results" "habitat_quality"
           (mk_output "quality.tif" "habitat_quality.tif" "habitat_quality")
           (mk_output "degradation.tif" "habitat_degradation.tif" "degradation") []);
    reflexivity.
Defined.



(** The last step of [extract_body]: the carbon summary, then the
    membership of a result. *)
Ltac finish_keys E Hin rv :=
  destruct ((_ =? "carbon")%string && _) eqn:Ec;
  [destruct (rv _); [|discriminate];
   destruct (carbon_json _ _ _ _ _ _); [|discriminate]|];
  injection E as <-; repeat rewrite in_app_iff in Hin; simpl in Hin;
  repeat match goal with
  | H : _ \/ _ |- _ => destruct H
  | H : False |- _ => destruct H
  | H : (_, _) = (_, _) |- _ => injection H as <- <-
  end;
  first [ left; split; reflexivity
        | right; left; split; reflexivity
        | right; right; apply andb_prop in Ec as [Ec _];
          apply String.eqb_eq in Ec; repeat split; assumption ].

(** Every extracted result is one of the model's two outputs, copied into
    [output_dir] under its new name, or (carbon model only) the summary
    JSON in [output_dir]. *)
Theorem extract_invest_results_keys :
  forall r_mean r_sum r_std r_min r_max read_values fs ws out m st results st',
  extract_invest_results r_mean r_sum r_std r_min r_max read_values fs ws out m st
    = (Done results, st') ->
  forall k p, In (k, p) results ->
  exists prim sec, model_outputs m = Some (prim, sec) /\
    ((k = result_key prim /\ p = os_path_join out (dst_name prim)) \/
     (k = result_key sec /\ p = os_path_join out (dst_name sec)) \/
     (m = "carbon"%string /\ k = "summary"%string /\
      p = os_path_join out "carbon_summary.json")).
Proof.
  intros r_mean r_sum r_std r_min r_max read_values fs ws out m st results st' H k p Hin.
  unfold extract_invest_results in H.
  destruct (extract_body _ _ _ _ _ _ _ _ _ _) as [res|e] eqn:E; [|discriminate].
  injection H as <- _.
  unfold extract_body in E.
  destruct (os_makedirs_exist_ok fs out); [discriminate|].
  destruct (model_outputs m) as [[prim sec]|]; [|injection E as <-; contradiction].
  exists prim, sec. split; [reflexivity|]. cbv zeta in E.
  destruct (path_exists fs (os_path_join ws (src_name prim))).
  - destruct (shutil_copy2 _ _ _); [discriminate|]. cbv iota beta in E.
    destruct (path_exists fs (os_path_join ws (src_name sec)));
      cbn [negb] in E; cbv iota beta in E.
    + destruct (shutil_copy2 _ _ _); [discriminate|]. cbv iota beta in E.
      finish_keys E Hin read_values.
    + finish_keys E Hin read_values.
  - destruct (path_exists fs (os_path_join ws (src_name sec)));
      cbn [negb] in E; cbv iota beta in E; [discriminate|].
    finish_keys E Hin read_values.
Qed.

Lemma extract_invest_results_keys_witness :
  exists prim sec, model_outputs "sdr" = Some (prim, sec) /\
    (("sediment_export"%string = result_key prim /\
      "out/sediment_export.tif"%string = os_path_join "out" (dst_name prim)) \/
     ("sediment_export"%string = result_key sec /\
      "out/sediment_export.tif"%string = os_path_join "out" (dst_name sec)) \/
     ("sdr"%string = "carbon"%string /\ "sediment_export"%string = "summary"%string /\
      "out/sediment_export.tif"%string = os_path_join "out" "carbon_summary.json")).
Proof.
  apply (extract_invest_results_keys (np_mean np_sum_small) np_sum_small
           (np_mean np_sum_small) np_min_small np_max_small (fun _ => None)
           (files_fs ["ws/sed_export.tif"%string] [])
           "ws" "out" "sdr" [] [("sediment_export"%string, "out/sediment_export.tif"%string)]
           (snd (extract_invest_results (np_mean np_sum_small) np_sum_small
                   (np_mean np_sum_small) np_min_small np_max_small (fun _ => None)
                   (files_fs ["ws/sed_export.tif"%string] [])
                   "ws" "out" "sdr" []))).
  - vm_compute. reflexivity.
  - left. reflexivity.
Defined.

Lemma model_outputs_carbon : model_outputs "carbon" =
  Some (mk_output "total_carbon.tif" "total_carbon.tif" "total_carbon",
        mk_output "net_present_value.tif" "net_present_value.tif" "npv").
Proof. reflexivity. Qed.



(** ** Scenario rasters: pixelwise behaviour *)

Lemma nth_map_lt : forall (A B : Type) (f : A -> B) l i da db,
  (i < List.length l)%nat -> nth i (map f l) db = f (nth i l da).
Proof.
  intros A B f l. induction l as [|x l IH]; intros i da db Hi; simpl in Hi; [lia|].
  destruct i; simpl; [reflexivity|]. apply IH. lia.
Qed.

Lemma nth_repeat_lt : forall (A : Type) (a d : A) m i,
  (i < m)%nat -> nth i (repeat a m) d = a.
Proof.
  intros A a d m. induction m as [|m IH]; intros i Hi; [lia|].
  destruct i; simpl; [reflexivity|]. apply IH. lia.
Qed.

Lemma rio_mask_length : forall src area,
  List.length area = List.length (data src) ->
  List.length (rio_mask src area) = List.length (data src).
Proof.
  intros src area H. unfold rio_mask. rewrite length_map, length_combine, H. lia.
Qed.

Lemma rio_mask_nth : forall src area i,
  List.length area = List.length (data src) -> (i < List.length (data src))%nat ->
  nth i (rio_mask src area) 0 =
  if nth i area false then nth i (data src) 0
  else match nodata src with Some n => n | None => 0 end.
Proof.
  intros src area i Hl Hi. unfold rio_mask.
  rewrite (nth_map_lt _ _ _ _ i (0, false)) by (rewrite length_combine; lia).
  rewrite combine_nth by lia. reflexivity.
Qed.

Lemma scenario_step_length : forall sd m nv,
  List.length m = List.length sd -> List.length (scenario_step sd m nv) = List.length sd.
Proof.
  intros sd m nv H. unfold scenario_step. rewrite length_map, length_combine, H. lia.
Qed.

Lemma scenario_step_nth : forall sd m nv i,
  List.length m = List.length sd -> (i < List.length sd)%nat ->
  nth i (scenario_step sd m nv) 0 = if nth i m 0 =? 0 then nth i sd 0 else nv.
Proof.
  intros sd m nv i Hl Hi. unfold scenario_step.
  rewrite (nth_map_lt _ _ _ _ i (0, 0)) by (rewrite length_combine; lia).
  rewrite combine_nth by lia. reflexivity.
Qed.

Section ScenarioFold.

Variable src : raster.

Let L := List.length (data src).
Let fill := match nodata src with Some n => n | None => 0 end.

(** A pixelwise property kept by every change of [create_scenario_lulc]. *)
Lemma scenario_fold_inv : forall (Q : nat -> Z -> Prop) pairs sd,
  Forall (fun '(a, _) => List.length a = L) pairs ->
  List.length sd = L ->
  (forall i, (i < L)%nat -> Q i (nth i sd 0)) ->
  (forall a nv i x, In (a, nv) pairs -> (i < L)%nat -> Q i x ->
     Q i (if (if nth i a false then nth i (data src) 0 else fill) =? 0 then x else nv)) ->
  let out := fold_left (fun sd '(area, new_value) =>
                          scenario_step sd (rio_mask src area) new_value) pairs sd in
  List.length out = L /\ (forall i, (i < L)%nat -> Q i (nth i out 0)).
Proof.
  intros Q pairs. induction pairs as [|[a nv] pairs IH]; intros sd Hf Hl Hq Hstep;
    simpl; [auto|].
  inversion Hf as [|? ? Ha Hf']; subst.
  assert (Hm : List.length (rio_mask src a) = List.length sd)
    by (rewrite rio_mask_length; [subst L; lia|exact Ha]).
  apply IH.
  - exact Hf'.
  - rewrite scenario_step_length; assumption.
  - intros i Hi. rewrite scenario_step_nth by lia.
    rewrite rio_mask_nth by (subst L; lia).
    apply Hstep; [now left|exact Hi|auto].
  - intros a' nv' i x Hin. apply Hstep. now right.
Qed.

Lemma scenario_fold_last : forall pairs sd,
  Forall (fun '(a, _) => List.length a = L) pairs ->
  List.length sd = L ->
  fill <> 0 -> Forall (fun b => b <> 0) (data src) -> pairs <> [] ->
  fold_left (fun sd '(area, new_value) =>
               scenario_step sd (rio_mask src area) new_value) pairs sd
  = repeat (snd (last pairs ([], 0))) L.
Proof.
  intros pairs. induction pairs as [|[a nv] pairs IH]; intros sd Hf Hl Hfill Hb Hne;
    [congruence|].
  inversion Hf as [|? ? Ha Hf']; subst. cbn [fold_left].
  assert (Hm : List.length (rio_mask src a) = List.length sd)
    by (rewrite rio_mask_length; [subst L; lia|exact Ha]).
  assert (Hs : List.length (scenario_step sd (rio_mask src a) nv) = L)
    by (rewrite scenario_step_length; assumption).
  destruct pairs as [|p pairs'].
  - simpl. apply nth_ext with (d := 0) (d' := 0).
    + rewrite Hs, repeat_length. reflexivity.
    + intros i Hi. rewrite Hs in Hi. rewrite nth_repeat_lt by exact Hi.
      rewrite scenario_step_nth by lia. rewrite rio_mask_nth by (subst L; lia).
      rewrite Forall_forall in Hb.
      assert (Hbi : nth i (data src) 0 <> 0) by (apply Hb, nth_In; subst L; lia).
      fold fill. destruct (nth i a false);
        match goal with |- context [?x =? 0] => destruct (Z.eqb_spec x 0) end; congruence.
  - rewrite IH; [reflexivity|exact Hf'|exact Hs|exact Hfill|exact Hb|discriminate].
Qed.

End ScenarioFold.

(** With every new value in the raster's dtype, the loop raises nothing. *)
Lemma create_scenario_lulc_ok : forall src change_areas new_values,
  Forall (fun v => fits (dtype src) v = true) new_values ->
  create_scenario_lulc src change_areas new_values =
  Ok (mk_raster (fold_left (fun sd '(area, new_value) =>
                              scenario_step sd (rio_mask src area) new_value)
                           (combine change_areas new_values) (data src))
                (nodata src) (dtype src)).
Proof.
  intros src areas vals Hv. unfold create_scenario_lulc.
  rewrite (for_each_ok _ _ (scenario_assign src)
             (fun sd '(area, new_value) => scenario_step sd (rio_mask src area) new_value)
             (fun av => fits (dtype src) (snd av) = true)).
  - reflexivity.
  - intros sd [a v] H. unfold scenario_assign. cbn [fst snd] in *.
    rewrite np_int_for_fits by exact H. reflexivity.
  - intros [a v] Hin. apply in_combine_r in Hin. rewrite Forall_forall in Hv. exact (Hv v Hin).
Qed.

(** Without a nonzero nodata value, and with every new value in the
    raster's dtype, [create_scenario_lulc] raises nothing and keeps the
    raster's shape, nodata value and dtype; a pixel with base value 0, or
    outside every change area, keeps its base value; every other pixel
    holds its base value or one of the new values. *)
Theorem create_scenario_lulc_pixels :
  forall src change_areas new_values,
  (nodata src = None \/ nodata src = Some 0) ->
  Forall (fun a => List.length a = List.length (data src)) change_areas ->
  Forall (fun v => fits (dtype src) v = true) new_values ->
  exists out,
  create_scenario_lulc src change_areas new_values = Ok (mk_raster out (nodata src) (dtype src)) /\
  List.length out = List.length (data src) /\
  (forall i, (i < List.length (data src))%nat ->
     (nth i (data src) 0 = 0 \/ (forall a, In a change_areas -> nth i a false = false)) ->
     nth i out 0 = nth i (data src) 0) /\
  (forall i, (i < List.length (data src))%nat ->
     nth i out 0 = nth i (data src) 0 \/ In (nth i out 0) new_values).
Proof.
  intros src areas vals Hnd Hlen Hv.
  rewrite (create_scenario_lulc_ok src areas vals Hv).
  eexists. split; [reflexivity|].
  assert (Hfill : match nodata src with Some n => n | None => 0 end = 0)
    by (destruct Hnd as [-> | ->]; reflexivity).
  assert (Hf : Forall (fun '(a, _) => List.length a = List.length (data src))
                      (combine areas vals)).
  { rewrite Forall_forall in *. intros [a nv] Hin. apply Hlen. eapply in_combine_l; eauto. }
  destruct (scenario_fold_inv src
              (fun i x => (nth i (data src) 0 = 0 \/
                           (forall a, In a areas -> nth i a false = false)) ->
                          x = nth i (data src) 0)
              (combine areas vals) (data src) Hf eq_refl) as [Hl H2].
  { intros i _ _. reflexivity. }
  { intros a nv i x Hin Hi Hq Hc. rewrite Hfill.
    assert (Hai : In a areas) by (eapply in_combine_l; eauto).
    destruct Hc as [H0|Hout].
    - assert (Hx : x = nth i (data src) 0) by (apply Hq; auto).
      destruct (nth i a false); [|exact Hx].
      destruct (Z.eqb_spec (nth i (data src) 0) 0); [exact Hx|contradiction].
    - rewrite (Hout a Hai). simpl. apply Hq. right. exact Hout. }
  destruct (scenario_fold_inv src
              (fun i x => x = nth i (data src) 0 \/ In x vals)
              (combine areas vals) (data src) Hf eq_refl) as [_ H3].
  { intros i _. now left. }
  { intros a nv i x Hin Hi Hq.
    destruct (_ =? 0); [exact Hq|]. right. eapply in_combine_r; eauto. }
  split; [exact Hl|split; [exact H2|exact H3]].
Qed.

Lemma create_scenario_lulc_pixels_witness :
  exists out,
  create_scenario_lulc (mk_raster [0; 7; 3] None uint8) [[true; true; false]] [5]
    = Ok (mk_raster out None uint8) /\
  List.length out = 3%nat.
Proof.
  destruct (create_scenario_lulc_pixels (mk_raster [0; 7; 3] None uint8)
              [[true; true; false]] [5]) as (out & H1 & H2 & _).
  - left. reflexivity.
  - repeat constructor.
  - repeat constructor.
  - exists out. split; [exact H1|exact H2].
Defined.

(** With a nonzero nodata value, no pixel equal to 0, and every new value
    in the raster's dtype, every change area masks the whole raster (its
    outside is filled with the nodata value, read as [True]), so the
    scenario raster is the last new value everywhere. *)
Theorem create_scenario_lulc_nonzero_nodata_overwrites :
  forall src change_areas new_values n,
  nodata src = Some n -> n <> 0 ->
  Forall (fun b => b <> 0) (data src) ->
  Forall (fun a => List.length a = List.length (data src)) change_areas ->
  Forall (fun v => fits (dtype src) v = true) new_values ->
  combine change_areas new_values <> [] ->
  create_scenario_lulc src change_areas new_values
  = Ok (mk_raster (repeat (snd (last (combine change_areas new_values) ([], 0)))
                          (List.length (data src)))
                  (nodata src) (dtype src)).
Proof.
  intros src areas vals n Hnd Hn Hb Hlen Hv Hne.
  rewrite (create_scenario_lulc_ok src areas vals Hv).
  do 2 f_equal. apply scenario_fold_last.
  - rewrite Forall_forall in *. intros [a nv] Hin. apply Hlen. eapply in_combine_l; eauto.
  - reflexivity.
  - rewrite Hnd. exact Hn.
  - exact Hb.
  - exact Hne.
Qed.

Lemma create_scenario_lulc_nonzero_nodata_overwrites_witness :
  create_scenario_lulc (mk_raster [3; 7; 4] (Some 255) uint8)
    [[true; false; false]; [false; false; true]] [5; 9]
  = Ok (mk_raster [9; 9; 9] (Some 255) uint8).
Proof.
  apply (create_scenario_lulc_nonzero_nodata_overwrites (mk_raster [3; 7; 4] (Some 255) uint8)
           [[true; false; false]; [false; false; true]] [5; 9] 255).
  - reflexivity.
  - discriminate.
  - repeat constructor; discriminate.
  - repeat constructor.
  - repeat constructor.
  - discriminate.
Defined.

(** ** Input validation of the carbon model *)

Lemma mem_Z_In : forall z l, mem_Z z l = true <-> In z l.
Proof.
  intros z l. unfold mem_Z. rewrite existsb_exists. split.
  - intros [x [Hx E]]. apply Z.eqb_eq in E. subst. exact Hx.
  - intros H. exists z. split; [exact H|apply Z.eqb_refl].
Qed.

Lemma mem_string_In : forall s l, mem_string s l = true <-> In s l.
Proof.
  intros s l. unfold mem_string. rewrite existsb_exists. split.
  - intros [x [Hx E]]. apply String.eqb_eq in E. subst. exact Hx.
  - intros H. exists s. split; [exact H|apply String.eqb_refl].
Qed.

Lemma missing_classes_In : forall v unique_values carbon_df,
  In v (missing_classes unique_values carbon_df) <->
  In v unique_values /\ ~ In v (lucodes carbon_df) /\ v <> 0.
Proof.
  intros v u df. unfold missing_classes. rewrite filter_In, andb_true_iff,
    !negb_true_iff, Z.eqb_neq.
  split.
  - intros (Hu & Hm & Hz). repeat split; auto.
    intros Hin. apply mem_Z_In in Hin. congruence.
  - intros (Hu & Hm & Hz). repeat split; auto.
    destruct (mem_Z v (lucodes df)) eqn:E; [|reflexivity].
    apply mem_Z_In in E. contradiction.
Qed.

(** When [prepare_carbon_inputs] succeeds, it returns the three paths as
    the model arguments, the carbon pools CSV has all required columns, and
    it has logged a warning exactly when some nonzero class of the raster
    has no row in the CSV. *)
Theorem prepare_carbon_inputs_ok :
  forall fs lulc_path carbon_pools_csv output_dir st args st' lulc_data carbon_df,
  has_level WARNING st = false ->
  read_raster fs lulc_path = Some lulc_data ->
  read_csv fs carbon_pools_csv = Some carbon_df ->
  prepare_carbon_inputs fs lulc_path carbon_pools_csv output_dir st = (Ok args, st') ->
  args = mk_args lulc_path carbon_pools_csv output_dir /\
  (forall col, In col required_cols -> In col (columns carbon_df)) /\
  (has_level WARNING st' = true <->
   exists v, In v lulc_data /\ v <> 0 /\ ~ In v (lucodes carbon_df)).
Proof.
  intros fs lulc csv out st args st' data df Hw Hr Hc H.
  unfold prepare_carbon_inputs in H.
  destruct (path_exists fs lulc); cbn [negb] in H; [|discriminate H].
  destruct (path_exists fs csv); cbn [negb] in H; [|discriminate H].
  destruct (if path_exists fs out then None else os_makedirs fs out); [discriminate H|].
  rewrite Hr, Hc in H.
  destruct (Nat.eqb (List.length (missing_columns df)) 0) eqn:Em;
    cbn [negb] in H; [|discriminate H].
  injection H as <- <-. split; [reflexivity|split].
  - intros col Hcol. apply Nat.eqb_eq, length_zero_iff_nil in Em.
    destruct (mem_string col (columns df)) eqn:E; [apply mem_string_In; exact E|].
    assert (Hin : In col (missing_columns df))
      by (unfold missing_columns; apply filter_In; rewrite E; auto).
    rewrite Em in Hin. destruct Hin.
  - rewrite has_level_log. cbn [level_eqb]. rewrite orb_false_r.
    destruct (Nat.eqb (List.length (missing_classes (np_unique data) df)) 0) eqn:E2;
      cbn [negb].
    + rewrite !has_level_log, Hw. cbn. split; [discriminate|].
      intros (v & Hv & Hz & Hn).
      apply Nat.eqb_eq, length_zero_iff_nil in E2.
      assert (Hin : In v (missing_classes (np_unique data) df))
        by (apply missing_classes_In; rewrite np_unique_In; auto).
      rewrite E2 in Hin. destruct Hin.
    + rewrite has_level_log. cbn [level_eqb]. rewrite orb_true_r. split; [intros _|reflexivity].
      destruct (missing_classes (np_unique data) df) as [|v mv] eqn:E3; [discriminate E2|].
      assert (Hin : In v (missing_classes (np_unique data) df)) by (rewrite E3; now left).
      apply missing_classes_In in Hin as (Hv & Hn & Hz). rewrite np_unique_In in Hv.
      exists v. auto.
Qed.

Lemma prepare_carbon_inputs_ok_witness :
  has_level WARNING (snd (prepare_carbon_inputs demo_fs "lulc.tif" "carbon_pools.csv" "out" []))
    = true <->
  exists v, In v [0; 1; 2] /\ v <> 0 /\ ~ In v [1].
Proof.
  destruct (prepare_carbon_inputs_ok demo_fs "lulc.tif" "carbon_pools.csv" "out" []
              (mk_args "lulc.tif" "carbon_pools.csv" "out")
              (snd (prepare_carbon_inputs demo_fs "lulc.tif" "carbon_pools.csv" "out" []))
              [0; 1; 2] (mk_csv required_cols [1]))
    as (_ & _ & H3); [reflexivity|reflexivity|reflexivity|vm_compute; reflexivity|].
  exact H3.
Defined.

(** ** Reclassification *)

(** When every [new_value] of the table lies in the raster's dtype and no
    [new_value] is also an [original_value], [prepare_lulc_for_invest]
    succeeds, and applying it to its own output with the same table changes
    nothing: reclassification is idempotent. *)
Theorem prepare_lulc_for_invest_idempotent :
  forall src rows,
  (forall o n, In (o, n) rows -> fits (dtype src) n = true) ->
  (forall v, In v (map snd rows) -> ~ In v (map fst rows)) ->
  exists r, prepare_lulc_for_invest src (Some rows) = Ok r /\
            prepare_lulc_for_invest r (Some rows) = Ok r.
Proof.
  intros src rows Hfit Hk.
  rewrite (prepare_lulc_ok src rows Hfit).
  eexists. split; [reflexivity|].
  rewrite prepare_lulc_ok by exact Hfit. cbn [data dtype].
  do 2 f_equal. rewrite map_map. apply map_ext. intros o.
  destruct (lookup_last rows o) as [v|] eqn:Eo.
  - rewrite lookup_last_absent; [reflexivity|].
    apply Hk. apply lookup_last_some_In in Eo.
    apply in_map_iff. exists (o, v). auto.
  - rewrite Eo. reflexivity.
Qed.

Lemma prepare_lulc_for_invest_idempotent_witness :
  exists r,
  prepare_lulc_for_invest (mk_raster [1; 2; 3; 9] None uint8) (Some [(1, 10); (2, 20)]) = Ok r /\
  prepare_lulc_for_invest r (Some [(1, 10); (2, 20)]) = Ok r.
Proof.
  apply prepare_lulc_for_invest_idempotent.
  - rows_fit.
  - vm_compute. intros v [<-|[<-|[]]]; intros [H|[H|[]]]; discriminate H.
Defined.

(** For the carbon model, a successful extraction has a ['summary'] result
    exactly when the workspace holds [total_carbon.tif]. *)
Theorem extract_carbon_summary_iff_total_carbon :
  forall r_mean r_sum r_std r_min r_max read_values fs ws out st results st',
  extract_invest_results r_mean r_sum r_std r_min r_max read_values fs ws out "carbon" st
    = (Done results, st') ->
  (In "summary"%string (map fst results) <->
   path_exists fs (os_path_join ws "total_carbon.tif") = true).
Proof.
  intros r_mean r_sum r_std r_min r_max read_values fs ws out st results st' H.
  unfold extract_invest_results in H.
  destruct (extract_body _ _ _ _ _ _ _ _ _ _) as [res|e] eqn:E; [|discriminate].
  injection H as <- _.
  unfold extract_body in E.
  destruct (os_makedirs_exist_ok fs out); [discriminate|].
  rewrite model_outputs_carbon in E. cbv zeta iota beta in E.
  cbn [src_name dst_name result_key] in E. rewrite String.eqb_refl in E.
  destruct (path_exists fs (os_path_join ws "total_carbon.tif")).
  - destruct (shutil_copy2 _ _ _); [discriminate|]. cbv iota beta in E.
    destruct (path_exists fs (os_path_join ws "net_present_value.tif"));
      cbn [negb] in E; cbv iota beta in E.
    + destruct (shutil_copy2 _ _ _); [discriminate|]. cbv iota beta in E.
      cbn [andb] in E.
      destruct (read_values _); [|discriminate].
      destruct (carbon_json _ _ _ _ _ _); [|discriminate].
      injection E as <-. simpl. split; [reflexivity|intros _; intuition].
    + cbn [andb] in E.
      destruct (read_values _); [|discriminate].
      destruct (carbon_json _ _ _ _ _ _); [|discriminate].
      injection E as <-. simpl. split; [reflexivity|intros _; intuition].
  - destruct (path_exists fs (os_path_join ws "net_present_value.tif"));
      cbn [negb] in E; cbv iota beta in E; [discriminate|].
    cbn [andb] in E. injection E as <-. simpl. split; [tauto|discriminate].
Qed.

Lemma extract_carbon_summary_iff_total_carbon_witness :
  In "summary"%string
     (map fst [("total_carbon"%string, "out/total_carbon.tif"%string);
               ("summary"%string, "out/carbon_summary.json"%string)]) <->
  path_exists (files_fs ["ws/total_carbon.tif"%string] [])
              (os_path_join "ws" "total_carbon.tif") = true.
Proof.
  apply (extract_carbon_summary_iff_total_carbon (np_mean np_sum_small) np_sum_small
           (np_mean np_sum_small) np_min_small np_max_small
           (fun p => if String.eqb p "ws/total_carbon.tif" then Some [of_int 5] else None)
           (files_fs ["ws/total_carbon.tif"%string] [])
           "ws" "out" []
           [("total_carbon"%string, "out/total_carbon.tif"%string);
            ("summary"%string, "out/carbon_summary.json"%string)]
           (snd (extract_invest_results (np_mean np_sum_small) np_sum_small
                   (np_mean np_sum_small) np_min_small np_max_small
                   (fun p => if String.eqb p "ws/total_carbon.tif" then Some [of_int 5] else None)
                   (files_fs ["ws/total_carbon.tif"%string] [])
                   "ws" "out" "carbon" []))).
  vm_compute. reflexivity.
Defined.
